(** * Certificate lifecycle service: shallow embedding and properties

    Embeds [internal/op/certificate.go] (the service layer) and the
    handlers of the [handles] package that call into it.  The packages [model], [db]
    and [server/common], which that code calls, lie outside these two
    files; they are modelled from the specification and marked as such.
    Go's [errors], [fmt] and [time] are modelled as far as the service uses
    them. *)

From Stdlib Require Import String List Bool ZArith NArith Lia DecimalString.
Import ListNotations.
Open Scope string_scope.

(* ------------------------------------------------------------------ *)
(** ** Go errors *)

Module errors.

(** An error value: the sentinel [gorm.ErrRecordNotFound], an error raised
    by the storage engine, an error made by [fmt.Errorf] with a literal
    message, or an error wrapped with a message by [errors.Wrap]. *)
Inductive error : Type :=
| ErrRecordNotFound : error
| StorageError : string -> error
| Errorf : string -> error
| Wrap : error -> string -> error.

(** [err.Error()]: [Wrap] prefixes the message of the cause. *)
Fixpoint Error (e : error) : string :=
  match e with
  | ErrRecordNotFound => "record not found"
  | StorageError m => m
  | Errorf m => m
  | Wrap cause m => m ++ ": " ++ Error cause
  end.

Definition is_sentinel (e : error) : bool :=
  match e with ErrRecordNotFound => true | _ => false end.

(** [errors.Is(err, gorm.ErrRecordNotFound)] for a non-nil [err]: follows
    the chain of causes. *)
Fixpoint IsNotFound (e : error) : bool :=
  match e with
  | Wrap cause _ => IsNotFound cause
  | _ => is_sentinel e
  end.

End errors.
Export errors.

(* ------------------------------------------------------------------ *)
(** ** Go time, as far as the service uses it *)

Module time.

(** A civil instant: calendar date and nanoseconds since midnight. *)
Record Time : Type := mkTime {
  year : Z; month : Z; day : Z; nanos : Z
}.

Definition isLeap (y : Z) : bool :=
  ((y mod 4 =? 0) && (negb (y mod 100 =? 0) || (y mod 400 =? 0)))%Z%bool.

(** [t.AddDate(years, 0, 0)]: the only call site passes no months and no
    days.  The date is normalised as Go does: 29 February of a leap
    year lands on 1 March when the target year is not a leap year. *)
Definition AddDate (years : Z) (t : Time) : Time :=
  let y := (year t + years)%Z in
  if ((month t =? 2) && (day t =? 29) && negb (isLeap y))%Z%bool
  then mkTime y 3 1 (nanos t)
  else mkTime y (month t) (day t) (nanos t).

End time.
Export time.

(* ------------------------------------------------------------------ *)
(** ** Package model *)

Module model.

(** Modelled from the spec: the declaration of [model.CertificateStatus]
    is missing; the data model lists the statuses valid, expiring,
    revoked, pending and rejected, shared by certificates and requests. *)
Inductive CertificateStatus : Type :=
| CertificateStatusValid
| CertificateStatusExpiring
| CertificateStatusRevoked
| CertificateStatusPending
| CertificateStatusRejected.

(** Modelled from the spec: the text a status prints as under [%s]; the
    spec's scenarios print the status names in lower case. *)
Definition status_string (s : CertificateStatus) : string :=
  match s with
  | CertificateStatusValid => "valid"
  | CertificateStatusExpiring => "expiring"
  | CertificateStatusRevoked => "revoked"
  | CertificateStatusPending => "pending"
  | CertificateStatusRejected => "rejected"
  end.

Definition status_eqb (a b : CertificateStatus) : bool :=
  match a, b with
  | CertificateStatusValid, CertificateStatusValid
  | CertificateStatusExpiring, CertificateStatusExpiring
  | CertificateStatusRevoked, CertificateStatusRevoked
  | CertificateStatusPending, CertificateStatusPending
  | CertificateStatusRejected, CertificateStatusRejected => true
  | _, _ => false
  end.

(** [model.CertificateType] is converted from a string by the handlers. *)
Definition CertificateType : Type := string.

(** Modelled from the spec: the fields of [model.User] the service reads. *)
Record User : Type := mkUser {
  user_ID : N;
  Username : string
}.

(** Modelled from the spec: the struct declaration is missing; the fields
    are those the service and the handlers assign. *)
Record Certificate : Type := mkCertificate {
  cert_ID : N;
  cert_Name : string;
  cert_Type : CertificateType;
  cert_Status : CertificateStatus;
  cert_Owner : string;
  cert_OwnerID : N;
  cert_Content : string;
  cert_IssuedDate : Time;
  cert_ExpirationDate : Time
}.

(** Modelled from the spec: as above, for [model.CertificateRequest].
    [ApprovedAt] and [RejectedAt] are pointers in the source. *)
Record CertificateRequest : Type := mkCertificateRequest {
  req_ID : N;
  req_UserName : string;
  req_UserID : N;
  req_Type : CertificateType;
  req_Status : CertificateStatus;
  req_Reason : string;
  req_ApprovedBy : string;
  req_ApprovedAt : option Time;
  req_RejectedBy : string;
  req_RejectedAt : option Time;
  req_RejectedReason : string
}.

(** Modelled from the spec: the method [IsPending] is missing; the spec
    calls it the single "is pending" predicate on the status. *)
Definition IsPending (r : CertificateRequest) : bool :=
  status_eqb (req_Status r) CertificateStatusPending.

(** Field assignments through the pointer, one setter per field written. *)
Definition set_cert_ID (v : N) (c : Certificate) : Certificate :=
  mkCertificate v (cert_Name c) (cert_Type c) (cert_Status c) (cert_Owner c)
    (cert_OwnerID c) (cert_Content c) (cert_IssuedDate c) (cert_ExpirationDate c).

Definition set_cert_Status (v : CertificateStatus) (c : Certificate) : Certificate :=
  mkCertificate (cert_ID c) (cert_Name c) (cert_Type c) v (cert_Owner c)
    (cert_OwnerID c) (cert_Content c) (cert_IssuedDate c) (cert_ExpirationDate c).

Definition set_req_ID (v : N) (r : CertificateRequest) : CertificateRequest :=
  mkCertificateRequest v (req_UserName r) (req_UserID r) (req_Type r)
    (req_Status r) (req_Reason r) (req_ApprovedBy r) (req_ApprovedAt r)
    (req_RejectedBy r) (req_RejectedAt r) (req_RejectedReason r).

Definition set_req_Status (v : CertificateStatus) (r : CertificateRequest)
  : CertificateRequest :=
  mkCertificateRequest (req_ID r) (req_UserName r) (req_UserID r) (req_Type r)
    v (req_Reason r) (req_ApprovedBy r) (req_ApprovedAt r)
    (req_RejectedBy r) (req_RejectedAt r) (req_RejectedReason r).

Definition set_req_ApprovedBy (v : string) (r : CertificateRequest)
  : CertificateRequest :=
  mkCertificateRequest (req_ID r) (req_UserName r) (req_UserID r) (req_Type r)
    (req_Status r) (req_Reason r) v (req_ApprovedAt r)
    (req_RejectedBy r) (req_RejectedAt r) (req_RejectedReason r).

Definition set_req_ApprovedAt (v : option Time) (r : CertificateRequest)
  : CertificateRequest :=
  mkCertificateRequest (req_ID r) (req_UserName r) (req_UserID r) (req_Type r)
    (req_Status r) (req_Reason r) (req_ApprovedBy r) v
    (req_RejectedBy r) (req_RejectedAt r) (req_RejectedReason r).

Definition set_req_RejectedBy (v : string) (r : CertificateRequest)
  : CertificateRequest :=
  mkCertificateRequest (req_ID r) (req_UserName r) (req_UserID r) (req_Type r)
    (req_Status r) (req_Reason r) (req_ApprovedBy r) (req_ApprovedAt r)
    v (req_RejectedAt r) (req_RejectedReason r).

Definition set_req_RejectedAt (v : option Time) (r : CertificateRequest)
  : CertificateRequest :=
  mkCertificateRequest (req_ID r) (req_UserName r) (req_UserID r) (req_Type r)
    (req_Status r) (req_Reason r) (req_ApprovedBy r) (req_ApprovedAt r)
    (req_RejectedBy r) v (req_RejectedReason r).

Definition set_req_RejectedReason (v : string) (r : CertificateRequest)
  : CertificateRequest :=
  mkCertificateRequest (req_ID r) (req_UserName r) (req_UserID r) (req_Type r)
    (req_Status r) (req_Reason r) (req_ApprovedBy r) (req_ApprovedAt r)
    (req_RejectedBy r) (req_RejectedAt r) v.

Definition set_cert_Name (v : string) (c : Certificate) : Certificate :=
  mkCertificate (cert_ID c) v (cert_Type c) (cert_Status c) (cert_Owner c)
    (cert_OwnerID c) (cert_Content c) (cert_IssuedDate c) (cert_ExpirationDate c).

Definition set_cert_ExpirationDate (v : Time) (c : Certificate) : Certificate :=
  mkCertificate (cert_ID c) (cert_Name c) (cert_Type c) (cert_Status c) (cert_Owner c)
    (cert_OwnerID c) (cert_Content c) (cert_IssuedDate c) v.

End model.
Export model.

(* ------------------------------------------------------------------ *)
(** ** The world a request runs in *)

(** The two tables, in insertion order, and the sequences their primary
    keys are drawn from. *)
Record Store : Type := mkStore {
  certificates : list Certificate;
  requests : list CertificateRequest;
  cert_seq : N;
  req_seq : N
}.

(** One entry per call into the data access layer. *)
Inductive DbCall : Type :=
| CallGetCertificateByID : N -> DbCall
| CallGetCertificateByOwnerID : N -> DbCall
| CallCreateCertificate : Certificate -> DbCall
| CallUpdateCertificate : Certificate -> DbCall
| CallGetCertificateRequestByID : N -> DbCall
| CallGetPendingCertificateRequestByUserID : N -> DbCall
| CallCreateCertificateRequest : CertificateRequest -> DbCall
| CallUpdateCertificateRequest : CertificateRequest -> DbCall.

Definition is_write (c : DbCall) : bool :=
  match c with
  | CallCreateCertificate _ | CallUpdateCertificate _
  | CallCreateCertificateRequest _ | CallUpdateCertificateRequest _ => true
  | _ => false
  end.

(** The store, the storage failures still to come (one entry per storage
    call, [Some m] making that call fail with message [m]; an exhausted plan
    means no further failure), the storage calls made so far, and the wall
    clock as the sequence of its readings. *)
Record World : Type := mkWorld {
  store : Store;
  faults : list (option string);
  trace : list DbCall;
  clock : nat -> Time;
  ticks : nat
}.

Definition writes (w : World) : list DbCall := filter is_write (trace w).

(** A Go result pair [(value, err)]. *)
Inductive result (A : Type) : Type :=
| Ok : A -> result A
| Err : error -> result A.
Arguments Ok {A} _.
Arguments Err {A} _.

(** Computations that read and write the world and may return an error;
    the world reached so far is kept when they do. *)
Definition M (A : Type) : Type := World -> result A * World.

Definition ret {A} (a : A) : M A := fun w => (Ok a, w).

Definition fail {A} (e : error) : M A := fun w => (Err e, w).

Definition bind {A B} (m : M A) (k : A -> M B) : M B :=
  fun w =>
    match m w with
    | (Ok a, w1) => k a w1
    | (Err e, w1) => (Err e, w1)
    end.

(** Receive both halves of a callee's result pair. *)
Definition catch {A} (m : M A) : M (result A) :=
  fun w => let (r, w1) := m w in (Ok r, w1).

Declare Scope go_scope.
Delimit Scope go_scope with go.
Notation "x <- m ;; k" := (bind m (fun x => k))
  (at level 61, m at next level, right associativity) : go_scope.

(** [time.Now()]: the next reading of the clock. *)
Definition time_Now : M Time :=
  fun w => (Ok (clock w (ticks w)),
            mkWorld (store w) (faults w) (trace w) (clock w) (S (ticks w))).

(* ------------------------------------------------------------------ *)
(** ** Package db *)

Module db.

Definition find_certificate (id : N) (s : Store) : option Certificate :=
  find (fun c => N.eqb (cert_ID c) id) (certificates s).

Definition find_certificate_by_owner (ownerID : N) (s : Store)
  : option Certificate :=
  find (fun c => N.eqb (cert_OwnerID c) ownerID) (certificates s).

Definition find_request (id : N) (s : Store) : option CertificateRequest :=
  find (fun r => N.eqb (req_ID r) id) (requests s).

Definition find_pending_request (userID : N) (s : Store)
  : option CertificateRequest :=
  find (fun r => N.eqb (req_UserID r) userID && IsPending r) (requests s).

Definition found {A} (o : option A) : result A :=
  match o with
  | Some a => Ok a
  | None => Err ErrRecordNotFound
  end.

(** Overwrite the row that has the primary key of [x]. *)
Fixpoint update_row {A} (key : A -> N) (x : A) (l : list A) : list A :=
  match l with
  | [] => []
  | y :: t => if N.eqb (key y) (key x) then x :: t else y :: update_row key x t
  end.

(** A storage call: it is recorded, it consumes the next entry of the
    failure plan, and it runs on the store unless that entry fails it. *)
Definition call {A} (c : DbCall) (body : Store -> result A * Store) : M A :=
  fun w =>
    let w1 := fun s => mkWorld s (tl (faults w)) (trace w ++ [c]) (clock w) (ticks w) in
    match hd None (faults w) with
    | Some m => (Err (StorageError m), w1 (store w))
    | None => let (r, s1) := body (store w) in (r, w1 s1)
    end.

(** Modelled from the spec: [db.GetCertificateByID] is missing; get-by-id
    on the certificate table, record-not-found when no row has the id. *)
Definition GetCertificateByID (id : N) : M Certificate :=
  call (CallGetCertificateByID id) (fun s => (found (find_certificate id s), s)).

(** Modelled from the spec: [db.GetCertificateByOwnerID] is missing;
    get-by-owner, a certificate owned by that user (here the oldest). *)
Definition GetCertificateByOwnerID (ownerID : N) : M Certificate :=
  call (CallGetCertificateByOwnerID ownerID)
       (fun s => (found (find_certificate_by_owner ownerID s), s)).

(** Modelled from the spec: [db.CreateCertificate] is missing; create, the
    new row taking the next primary key, which is written back to the
    record the caller holds. *)
Definition CreateCertificate (cert : Certificate) : M Certificate :=
  call (CallCreateCertificate cert)
       (fun s => let c := set_cert_ID (cert_seq s) cert in
                 (Ok c, mkStore (certificates s ++ [c]) (requests s)
                                (N.succ (cert_seq s)) (req_seq s))).

(** Modelled from the spec: [db.UpdateCertificate] is missing; update, the
    row with the record's primary key is overwritten with the record. *)
Definition UpdateCertificate (cert : Certificate) : M unit :=
  call (CallUpdateCertificate cert)
       (fun s => (Ok tt,
                  mkStore (update_row cert_ID cert (certificates s))
                          (requests s) (cert_seq s) (req_seq s))).

(** Modelled from the spec: [db.GetCertificateRequestByID] is missing;
    get-by-id on the request table. *)
Definition GetCertificateRequestByID (id : N) : M CertificateRequest :=
  call (CallGetCertificateRequestByID id)
       (fun s => (found (find_request id s), s)).

(** Modelled from the spec: [db.GetPendingCertificateRequestByUserID] is
    missing; a pending request owned by that user, record-not-found when
    there is none. *)
Definition GetPendingCertificateRequestByUserID (userID : N)
  : M CertificateRequest :=
  call (CallGetPendingCertificateRequestByUserID userID)
       (fun s => (found (find_pending_request userID s), s)).

(** Modelled from the spec: [db.CreateCertificateRequest] is missing;
    create on the request table, as for certificates. *)
Definition CreateCertificateRequest (request : CertificateRequest)
  : M CertificateRequest :=
  call (CallCreateCertificateRequest request)
       (fun s => let r := set_req_ID (req_seq s) request in
                 (Ok r, mkStore (certificates s) (requests s ++ [r])
                                (cert_seq s) (N.succ (req_seq s)))).

(** Modelled from the spec: [db.UpdateCertificateRequest] is missing;
    update on the request table, as for certificates. *)
Definition UpdateCertificateRequest (request : CertificateRequest) : M unit :=
  call (CallUpdateCertificateRequest request)
       (fun s => (Ok tt,
                  mkStore (certificates s)
                          (update_row req_ID request (requests s))
                          (cert_seq s) (req_seq s))).

End db.


(* ------------------------------------------------------------------ *)
(** ** Package op: internal/op/certificate.go *)

Module op.

Local Open Scope go_scope.

(** [%d] of an unsigned identifier. *)
Definition fmt_d (n : N) : string := NilZero.string_of_uint (N.to_uint n).

(** [Status == Valid || Status == Expiring] of the certificate found. *)
Definition blocks (existingCert : Certificate) : bool :=
  status_eqb (cert_Status existingCert) CertificateStatusValid
  || status_eqb (cert_Status existingCert) CertificateStatusExpiring.

Definition GetCertificateForTenant (ownerID : N) : M (option Certificate) :=
  r <- catch (db.GetCertificateByOwnerID ownerID) ;;
  match r with
  | Err err =>
      if negb (IsNotFound err) then fail err
      else ret None
  | Ok cert => ret (Some cert)
  end.

Definition RevokeCertificate (id : N) : M unit :=
  cert <- db.GetCertificateByID id ;;
  let cert := set_cert_Status CertificateStatusRevoked cert in
  db.UpdateCertificate cert.

Definition CreateTenantCertificateRequest (user : User)
    (reqType : CertificateType) (reason : string) : M CertificateRequest :=
  (* 3. create the new request *)
  let create : M CertificateRequest :=
    let request :=
      mkCertificateRequest 0 (Username user) (user_ID user) reqType
        CertificateStatusPending reason "" None "" None "" in
    db.CreateCertificateRequest request in
  (* 2. is a request of this tenant already being processed? *)
  let check_pending : M CertificateRequest :=
    p <- catch (db.GetPendingCertificateRequestByUserID (user_ID user)) ;;
    match p with
    | Err err =>
        if negb (IsNotFound err)
        then fail (Wrap err "failed to check pending request")
        else create
    | Ok _ => fail (Errorf "certificate request is pending for user")
    end in
  (* 1. does the tenant already hold a certificate in force? *)
  r <- catch (db.GetCertificateByOwnerID (user_ID user)) ;;
  match r with
  | Err err =>
      if negb (IsNotFound err)
      then fail (Wrap err "failed to check existing certificate")
      else check_pending
  | Ok existingCert =>
      if blocks existingCert
      then fail (Errorf "certificate already exists for user")
      else check_pending
  end.

Definition ApproveAndCreateCertificate (reqID : N) (adminUser : User)
    : M Certificate :=
  r <- catch (db.GetCertificateRequestByID reqID) ;;
  match r with
  | Err err => fail (Wrap err ("failed to get request by id: " ++ fmt_d reqID))
  | Ok req =>
      if negb (IsPending req)
      then fail (Errorf ("request is not pending, current status: "
                         ++ status_string (req_Status req)))
      else
      issued <- time_Now ;;
      base <- time_Now ;;
      let cert :=
        mkCertificate 0
          (req_UserName req ++ "-" ++ req_Type req ++ "-cert")
          (req_Type req)
          CertificateStatusValid
          (req_UserName req)
          (req_UserID req)
          ""
          issued
          (AddDate 1 base) in
      let req := set_req_Status CertificateStatusValid req in
      let req := set_req_ApprovedBy (Username adminUser) req in
      now <- time_Now ;;
      let req := set_req_ApprovedAt (Some now) req in
      c <- catch (db.CreateCertificate cert) ;;
      match c with
      | Err err => fail (Wrap err "failed to create certificate")
      | Ok cert =>
          u <- catch (db.UpdateCertificateRequest req) ;;
          match u with
          | Err err => fail (Wrap err "failed to update request")
          | Ok _ => ret cert
          end
      end
  end.

Definition RejectCertificateRequest (reqID : N) (adminUser : User)
    (reason : string) : M unit :=
  r <- catch (db.GetCertificateRequestByID reqID) ;;
  match r with
  | Err err => fail (Wrap err ("failed to get request by id: " ++ fmt_d reqID))
  | Ok req =>
      if negb (IsPending req)
      then fail (Errorf ("request is not pending, current status: "
                         ++ status_string (req_Status req)))
      else
      let req := set_req_Status CertificateStatusRejected req in
      let req := set_req_RejectedBy (Username adminUser) req in
      now <- time_Now ;;
      let req := set_req_RejectedAt (Some now) req in
      let req := set_req_RejectedReason reason req in
      db.UpdateCertificateRequest req
  end.

(** The package-level variables that name storage functions. *)
Definition GetCertificateByID : N -> M Certificate := db.GetCertificateByID.
Definition CreateCertificate : Certificate -> M Certificate := db.CreateCertificate.
Definition UpdateCertificate : Certificate -> M unit := db.UpdateCertificate.
Definition GetCertificateRequestByID : N -> M CertificateRequest :=
  db.GetCertificateRequestByID.
Definition CreateCertificateRequest : CertificateRequest -> M CertificateRequest :=
  db.CreateCertificateRequest.

(** [UpdateCertificateDetails] returns the pair [(cert, err)] as it stands
    after the update call: the certificate is returned beside the error
    when the update fails. *)
Definition UpdateCertificateDetails (id : N) (name : string)
    (expirationDate : Time)
    : World -> (option Certificate * option error) * World :=
  fun w =>
    match db.GetCertificateByID id w with
    | (Err err, w1) => ((None, Some err), w1)
    | (Ok cert, w1) =>
        let cert := set_cert_Name name cert in
        let cert := set_cert_ExpirationDate expirationDate cert in
        match db.UpdateCertificate cert w1 with
        | (Err err, w2) => ((Some cert, Some err), w2)
        | (Ok _, w2) => ((Some cert, None), w2)
        end
    end.

End op.

(* ------------------------------------------------------------------ *)
(** ** Package handles: the tenant request handler *)

Module handles.

(** Modelled from the spec: [common.ErrorResp] and [common.SuccessResp]
    are missing; an error response carries the status code it is given and
    the error's message, a success response carries the data. *)
Record Response (A : Type) : Type := mkResponse {
  status : Z;
  message : string;
  data : option A
}.
Arguments mkResponse {A} _ _ _.
Arguments status {A} _.
Arguments message {A} _.
Arguments data {A} _.

Definition ErrorResp {A} (err : error) (code : Z) : Response A :=
  mkResponse code (Error err) None.

Definition SuccessResp {A} (d : A) : Response A :=
  mkResponse 200 "success" (Some d).

(** The body of a tenant request, as [ShouldBindJSON] fills it. *)
Record TenantRequestBody : Type := mkTenantRequestBody {
  body_Type : CertificateType;
  body_Reason : string
}.

(** The handler, given the outcome of binding the body and the user the
    request context holds. *)
Definition CreateTenantCertificateRequest (bound : result TenantRequestBody)
    (user : User) (w : World) : Response CertificateRequest * World :=
  match bound with
  | Err err => (ErrorResp err 400, w)
  | Ok req =>
      match op.CreateTenantCertificateRequest user (body_Type req) (body_Reason req) w with
      | (Err err, w1) =>
          if String.eqb (Error err) "certificate already exists for user"
             || String.eqb (Error err) "certificate request is pending for user"
          then (ErrorResp err 400, w1)
          else (ErrorResp err 500, w1)
      | (Ok request, w1) => (SuccessResp request, w1)
      end
  end.

(** [common.SuccessResp(c)] without data. *)
Definition SuccessRespEmpty {A} : Response A := mkResponse 200 "success" None.

(** [uint(id)] of the [int] that [strconv.Atoi] returned.  Go's [int] and
    [uint] have the width of the target, [intSize] bits (32 or 64); the
    conversion wraps modulo 2^intSize. *)
Definition uint (intSize : Z) (id : Z) : N := Z.to_N (id mod 2 ^ intSize).

(** The bodies the handlers bind. *)
Record UpdateCertificateBody : Type := mkUpdateCertificateBody {
  upd_Name : string;
  upd_ExpirationDate : Time
}.

Record RejectBody : Type := mkRejectBody {
  rej_Reason : string
}.

Record AdminRequestBody : Type := mkAdminRequestBody {
  adm_UserName : string;
  adm_UserID : N;
  adm_Type : CertificateType;
  adm_Reason : string
}.

(** The handlers below are given the outcome of binding the body, the
    outcome of [strconv.Atoi] on the [id] path parameter, and the user
    the request context holds, as far as they use them; those that convert
    the id are also given the width [intSize] of the target's integers. *)

Definition UpdateCertificate (intSize : Z)
    (bound : result UpdateCertificateBody)
    (parsed : result Z) (w : World) : Response Certificate * World :=
  match bound with
  | Err err => (ErrorResp err 400, w)
  | Ok req =>
      match parsed with
      | Err err => (ErrorResp err 400, w)
      | Ok id =>
          match op.GetCertificateByID (uint intSize id) w with
          | (Err err, w1) => (ErrorResp err 500, w1)
          | (Ok cert, w1) =>
              let cert := set_cert_Name (upd_Name req) cert in
              let cert := set_cert_ExpirationDate (upd_ExpirationDate req) cert in
              match op.UpdateCertificate cert w1 with
              | (Err err, w2) => (ErrorResp err 500, w2)
              | (Ok _, w2) => (SuccessResp cert, w2)
              end
          end
      end
  end.

Definition RevokeCertificate (intSize : Z) (parsed : result Z) (w : World)
    : Response unit * World :=
  match parsed with
  | Err err => (ErrorResp err 400, w)
  | Ok id =>
      match op.RevokeCertificate (uint intSize id) w with
      | (Err err, w1) => (ErrorResp err 500, w1)
      | (Ok _, w1) => (SuccessRespEmpty, w1)
      end
  end.

Definition CreateCertificateRequest (bound : result AdminRequestBody)
    (w : World) : Response CertificateRequest * World :=
  match bound with
  | Err err => (ErrorResp err 400, w)
  | Ok req =>
      let request :=
        mkCertificateRequest 0 (adm_UserName req) (adm_UserID req)
          (adm_Type req) CertificateStatusPending (adm_Reason req)
          "" None "" None "" in
      match op.CreateCertificateRequest request w with
      | (Err err, w1) => (ErrorResp err 500, w1)
      | (Ok request, w1) => (SuccessResp request, w1)
      end
  end.

Definition ApproveCertificateRequest (intSize : Z) (parsed : result Z)
    (user : User) (w : World) : Response unit * World :=
  match parsed with
  | Err err => (ErrorResp err 400, w)
  | Ok id =>
      match op.ApproveAndCreateCertificate (uint intSize id) user w with
      | (Err err, w1) => (ErrorResp err 500, w1)
      | (Ok _, w1) => (SuccessRespEmpty, w1)
      end
  end.

Definition RejectCertificateRequest (intSize : Z) (bound : result RejectBody)
    (parsed : result Z) (user : User) (w : World) : Response unit * World :=
  match bound with
  | Err err => (ErrorResp err 400, w)
  | Ok req =>
      match parsed with
      | Err err => (ErrorResp err 400, w)
      | Ok id =>
          match op.RejectCertificateRequest (uint intSize id) user (rej_Reason req) w with
          | (Err err, w1) => (ErrorResp err 500, w1)
          | (Ok _, w1) => (SuccessRespEmpty, w1)
          end
      end
  end.

(** The data of the response is the possibly nil certificate pointer. *)
Definition GetTenantCertificate (user : User) (w : World)
    : Response (option Certificate) * World :=
  match op.GetCertificateForTenant (user_ID user) w with
  | (Err err, w1) => (ErrorResp err 500, w1)
  | (Ok cert, w1) => (SuccessResp cert, w1)
  end.

End handles.

(* ------------------------------------------------------------------ *)
(** ** Sequences of service operations *)

(** The operations on certificate requests the service exposes. *)
Inductive Operation : Type :=
| Approve : N -> User -> Operation
| Reject : N -> User -> string -> Operation
| TenantRequest : User -> CertificateType -> string -> Operation.

(** Run one operation; its result goes to the caller, the world stays. *)
Definition step (o : Operation) (w : World) : World :=
  match o with
  | Approve reqID adminUser => snd (op.ApproveAndCreateCertificate reqID adminUser w)
  | Reject reqID adminUser reason =>
      snd (op.RejectCertificateRequest reqID adminUser reason w)
  | TenantRequest user reqType reason =>
      snd (op.CreateTenantCertificateRequest user reqType reason w)
  end.

Definition run (ops : list Operation) (w : World) : World :=
  fold_left (fun acc o => step o acc) ops w.

(** The status the store holds for a request id. *)
Definition status_of (id : N) (w : World) : option CertificateStatus :=
  option_map req_Status (db.find_request id (store w)).

Definition terminal (s : CertificateStatus) : Prop :=
  s = CertificateStatusValid \/ s = CertificateStatusRejected.

(** The [k]-th storage call from now on is not failed by the storage. *)
Definition call_ok (k : nat) (w : World) : Prop := nth k (faults w) None = None.

(** The [k]-th storage call from now on is failed with message [m]. *)
Definition call_fails (k : nat) (m : string) (w : World) : Prop :=
  nth k (faults w) None = Some m.

(** The intended invariant: the user owns at most one certificate. *)
Definition owns_at_most_one (userID : N) (s : Store) : Prop :=
  forall c1 c2,
    In c1 (certificates s) -> In c2 (certificates s) ->
    cert_OwnerID c1 = userID -> cert_OwnerID c2 = userID -> c1 = c2.

(** The lookup by owner reports no certificate in force: none at all, or
    one whose status is neither valid nor expiring. *)
Definition no_blocking_certificate (r : result Certificate) : Prop :=
  match r with
  | Ok c => cert_Status c <> CertificateStatusValid /\
            cert_Status c <> CertificateStatusExpiring
  | Err e => IsNotFound e = true
  end.

(** The pending requests the table holds for a user. *)
Definition pending_of (userID : N) (s : Store) : list CertificateRequest :=
  filter (fun r => N.eqb (req_UserID r) userID && IsPending r) (requests s).

Definition is_approval (o : Operation) : bool :=
  match o with Approve _ _ => true | _ => false end.

(** A certificate as approval issues it: valid, without content. *)
Definition freshly_issued (c : Certificate) : Prop :=
  cert_Status c = CertificateStatusValid /\ cert_Content c = "".

(* ------------------------------------------------------------------ *)
(** ** Sample data *)

Module sample.

Definition noon (y m d : Z) (n : Z) : Time := mkTime y m d (43200000000000 + n).

(** A clock that advances by a nanosecond between readings. *)
Definition ticking (n : nat) : Time := mkTime 2025 6 1 (Z.of_nat n).

(** A clock too coarse to advance. *)
Definition frozen (_ : nat) : Time := mkTime 2025 6 1 0.

Definition admin : User := mkUser 1 "admin".
Definition alice : User := mkUser 10 "alice".
Definition bob : User := mkUser 11 "bob".
Definition carol : User := mkUser 12 "carol".

Definition request7 : CertificateRequest :=
  mkCertificateRequest 7 "alice" 10 "client" CertificateStatusPending
    "vpn access" "" None "" None "".

Definition request8 : CertificateRequest :=
  mkCertificateRequest 8 "bob" 11 "server" CertificateStatusRejected
    "staging host" "" None "admin" (Some (noon 2025 5 1 0)) "not needed".

Definition bobs_certificate : Certificate :=
  mkCertificate 3 "bob-server-cert" "server" CertificateStatusExpiring
    "bob" 11 "" (noon 2024 6 2 0) (noon 2025 6 2 0).

Definition carols_certificate : Certificate :=
  mkCertificate 4 "carol-client-cert" "client" CertificateStatusRevoked
    "carol" 12 "" (noon 2024 1 1 0) (noon 2025 1 1 0).

Definition store0 : Store :=
  mkStore [bobs_certificate; carols_certificate] [request7; request8] 5 9.

(** Storage answers every call. *)
Definition world0 : World := mkWorld store0 [] [] ticking 0.

(** As [world0], on the coarse clock. *)
Definition world_frozen : World := mkWorld store0 [] [] frozen 0.

(** The third storage call fails. *)
Definition world_third_fails : World :=
  mkWorld store0 [None; None; Some "database is locked"] [] ticking 0.

(** The second storage call fails. *)
Definition world_second_fails : World :=
  mkWorld store0 [None; Some "database is locked"] [] ticking 0.


End sample.

(* ------------------------------------------------------------------ *)
(** * Properties *)

Open Scope list_scope.

(** ** Rows and lookups *)

Section Rows.

Context {A : Type} (key : A -> N).

Let has (k : N) : A -> bool := fun y => N.eqb (key y) k.

Lemma find_key (k : N) (l : list A) (r : A) :
  find (has k) l = Some r -> key r = k /\ In r l.
Proof.
  intros H. apply find_some in H as [Hin Hk].
  split; [now apply N.eqb_eq | exact Hin].
Qed.

Lemma find_update_row_same (x : A) (l : list A) (r : A) :
  find (has (key x)) l = Some r ->
  find (has (key x)) (db.update_row key x l) = Some x.
Proof.
  subst has. induction l as [|y t IH]; simpl; [discriminate|].
  destruct (N.eqb (key y) (key x)) eqn:E; simpl.
  - now rewrite N.eqb_refl.
  - rewrite E. exact IH.
Qed.

Lemma find_update_row_other (k : N) (x : A) (l : list A) :
  k <> key x ->
  find (has k) (db.update_row key x l) = find (has k) l.
Proof.
  subst has. intros Hk. induction l as [|y t IH]; simpl; [reflexivity|].
  destruct (N.eqb (key y) (key x)) eqn:E; simpl.
  - apply N.eqb_eq in E.
    assert (N.eqb (key x) k = false) as -> by (apply N.eqb_neq; congruence).
    assert (N.eqb (key y) k = false) as -> by (apply N.eqb_neq; congruence).
    reflexivity.
  - now rewrite IH.
Qed.

Lemma update_row_same_row (x : A) (l : list A) :
  find (has (key x)) l = Some x -> db.update_row key x l = l.
Proof.
  subst has. induction l as [|y t IH]; simpl; [reflexivity|].
  destruct (N.eqb (key y) (key x)) eqn:E.
  - now intros [= ->].
  - intros H. now rewrite IH.
Qed.

Lemma find_app_found (f : A -> bool) (l l' : list A) (r : A) :
  find f l = Some r -> find f (l ++ l') = Some r.
Proof.
  induction l as [|y t IH]; simpl; [discriminate|].
  destruct (f y); [trivial | exact IH].
Qed.

End Rows.

(** ** Storage calls *)

Lemma find_exists {A} (f : A -> bool) (l : list A) (a : A) :
  In a l -> f a = true -> exists b, find f l = Some b.
Proof.
  intros Hin Hf. destruct (find f l) as [b|] eqn:E; [now exists b|].
  pose proof (find_none _ _ E _ Hin). congruence.
Qed.

Lemma status_eqb_eq (a b : CertificateStatus) :
  status_eqb a b = true <-> a = b.
Proof. destruct a, b; simpl; split; congruence. Qed.

Lemma IsPending_true (r : CertificateRequest) :
  IsPending r = true <-> req_Status r = CertificateStatusPending.
Proof. apply status_eqb_eq. Qed.

Lemma IsPending_false (r : CertificateRequest) :
  IsPending r = false <-> req_Status r <> CertificateStatusPending.
Proof.
  unfold IsPending. destruct (req_Status r); simpl; split; congruence.
Qed.

Lemma blocks_true (c : Certificate) :
  op.blocks c = true <->
  cert_Status c = CertificateStatusValid \/ cert_Status c = CertificateStatusExpiring.
Proof.
  unfold op.blocks. destruct (cert_Status c); simpl; split;
    solve [auto | intros [?|?]; congruence | congruence].
Qed.

(** What a storage call leaves behind, whatever it answers. *)
Lemma call_world {A} (c : DbCall) (body : Store -> result A * Store)
    (w w1 : World) (r : result A) :
  db.call c body w = (r, w1) ->
  faults w1 = tl (faults w) /\ trace w1 = trace w ++ [c] /\
  clock w1 = clock w /\ ticks w1 = ticks w.
Proof.
  unfold db.call. destruct (hd None (faults w)).
  - intros [= <- <-]. simpl. auto.
  - destruct (body (store w)). intros [= <- <-]. simpl. auto.
Qed.

(** A lookup that answers with a row: the call was not failed, the row is
    the one the table holds, and the store is as before. *)
Lemma lookup_row {A} (c : DbCall) (sel : Store -> option A)
    (w w1 : World) (a : A) :
  db.call c (fun s => (db.found (sel s), s)) w = (Ok a, w1) ->
  hd None (faults w) = None /\ sel (store w) = Some a /\
  w1 = mkWorld (store w) (tl (faults w)) (trace w ++ [c]) (clock w) (ticks w).
Proof.
  unfold db.call. destruct (hd None (faults w)); [discriminate|].
  destruct (sel (store w)); simpl; [|discriminate].
  intros [= <- <-]. auto.
Qed.

(** A lookup never touches the store. *)
Lemma lookup_store {A} (c : DbCall) (sel : Store -> option A)
    (w w1 : World) (r : result A) :
  db.call c (fun s => (db.found (sel s), s)) w = (r, w1) ->
  store w1 = store w.
Proof.
  unfold db.call. destruct (hd None (faults w)); intros [= <- <-]; reflexivity.
Qed.

(** Unfold the service's plumbing. *)
Ltac plumbing := unfold bind, catch, ret, fail, time_Now.

(** ** Fetching the tenant's certificate *)

(** C8. [GetCertificateForTenant] answers (nil, nil), no certificate and no
    error, when the lookup by owner id reports record-not-found; it hands
    any other error of the lookup on unchanged; and when the lookup finds a
    certificate it returns that certificate unchanged. *)
Theorem GetCertificateForTenant_outcomes (ownerID : N) (w : World) :
  match db.GetCertificateByOwnerID ownerID w with
  | (Ok cert, w1) =>
      op.GetCertificateForTenant ownerID w = (Ok (Some cert), w1)
  | (Err err, w1) =>
      op.GetCertificateForTenant ownerID w =
      (if IsNotFound err then Ok None else Err err, w1)
  end.
Proof.
  unfold op.GetCertificateForTenant. plumbing.
  destruct (db.GetCertificateByOwnerID ownerID w) as [[cert|err] w1].
  - reflexivity.
  - destruct (IsNotFound err); reflexivity.
Qed.

(** The three outcomes on the sample store: alice holds no certificate,
    bob holds one, and a failing storage is reported as such. *)
Example tenant_without_certificate :
  fst (op.GetCertificateForTenant 10 sample.world0) = Ok None.
Proof. reflexivity. Qed.

Example tenant_with_certificate :
  fst (op.GetCertificateForTenant 11 sample.world0) = Ok (Some sample.bobs_certificate).
Proof. reflexivity. Qed.

Example tenant_lookup_storage_failure :
  fst (op.GetCertificateForTenant 11
         (mkWorld sample.store0 [Some "connection reset"] [] sample.ticking 0))
  = Err (StorageError "connection reset").
Proof. reflexivity. Qed.

(** ** Approving a request *)

(** C2. When the request loaded for [reqID] is not pending, approval fails
    with the message "request is not pending, current status: <status>",
    no write reaches the storage, so no certificate is created, and the
    stored request is the one that was loaded. *)
Theorem approve_refuses_non_pending (reqID : N) (adminUser : User)
    (w w1 : World) (req : CertificateRequest) :
  db.GetCertificateRequestByID reqID w = (Ok req, w1) ->
  req_Status req <> CertificateStatusPending ->
  exists err,
    op.ApproveAndCreateCertificate reqID adminUser w = (Err err, w1) /\
    Error err = ("request is not pending, current status: "
                 ++ status_string (req_Status req))%string /\
    certificates (store w1) = certificates (store w) /\
    requests (store w1) = requests (store w) /\
    db.find_request reqID (store w1) = Some req /\
    writes w1 = writes w.
Proof.
  intros Hget Hst.
  destruct (lookup_row _ _ _ _ _ Hget) as (_ & Hfind & ->).
  apply IsPending_false in Hst.
  exists (Errorf ("request is not pending, current status: "
                  ++ status_string (req_Status req))%string).
  split; [|split; [reflexivity|]].
  - unfold op.ApproveAndCreateCertificate. plumbing.
    rewrite Hget, Hst. reflexivity.
  - simpl. repeat split; try assumption.
    unfold writes. simpl. rewrite filter_app. simpl. apply app_nil_r.
Qed.

Lemma approve_refuses_non_pending_witness :
  exists err,
    op.ApproveAndCreateCertificate 8 sample.admin sample.world0
    = (Err err, snd (db.GetCertificateRequestByID 8 sample.world0)) /\
    Error err = "request is not pending, current status: rejected"%string /\
    certificates (store (snd (db.GetCertificateRequestByID 8 sample.world0)))
    = certificates sample.store0 /\
    requests (store (snd (db.GetCertificateRequestByID 8 sample.world0)))
    = requests sample.store0 /\
    db.find_request 8 (store (snd (db.GetCertificateRequestByID 8 sample.world0)))
    = Some sample.request8 /\
    writes (snd (db.GetCertificateRequestByID 8 sample.world0)) = [].
Proof.
  apply (approve_refuses_non_pending 8 sample.admin sample.world0 _ sample.request8).
  - reflexivity.
  - simpl. discriminate.
Defined.

(** ** Tenant request creation *)

(** The insert of a request answers with the stored row or with the
    storage's failure. *)
Lemma CreateCertificateRequest_result (request : CertificateRequest) (w : World) :
  db.CreateCertificateRequest request w =
  match hd None (faults w) with
  | Some m =>
      (Err (StorageError m),
       mkWorld (store w) (tl (faults w))
         (trace w ++ [CallCreateCertificateRequest request]) (clock w) (ticks w))
  | None =>
      (Ok (set_req_ID (req_seq (store w)) request),
       mkWorld
         (mkStore (certificates (store w))
            (requests (store w) ++ [set_req_ID (req_seq (store w)) request])
            (cert_seq (store w)) (N.succ (req_seq (store w))))
         (tl (faults w))
         (trace w ++ [CallCreateCertificateRequest request]) (clock w) (ticks w))
  end.
Proof.
  unfold db.CreateCertificateRequest, db.call.
  destruct (hd None (faults w)); reflexivity.
Qed.

Lemma call_ok_next (w : World) : call_ok 0 w <-> hd None (faults w) = None.
Proof. unfold call_ok. destruct (faults w); simpl; tauto. Qed.

(** When the storage answers, the lookup of a pending request finds one
    exactly when the user has a pending request in the table. *)
Lemma pending_lookup_finds (userID : N) (w : World) :
  call_ok 0 w ->
  (exists p w1,
     db.GetPendingCertificateRequestByUserID userID w = (Ok p, w1))
  <->
  (exists p,
     In p (requests (store w)) /\ req_UserID p = userID /\
     req_Status p = CertificateStatusPending).
Proof.
  intros Hok. apply call_ok_next in Hok. split.
  - intros (p & w1 & Hget).
    destruct (lookup_row _ _ _ _ _ Hget) as (_ & Hfind & _).
    apply find_some in Hfind as [Hin Hp].
    apply andb_true_iff in Hp as [Hu Hp].
    exists p. repeat split;
      [exact Hin | now apply N.eqb_eq | now apply IsPending_true].
  - intros (p & Hin & Hu & Hp).
    destruct (find_exists
                (fun r => N.eqb (req_UserID r) userID && IsPending r)
                _ p Hin) as [q Hfind].
    { apply andb_true_iff. split;
        [now apply N.eqb_eq | now apply IsPending_true]. }
    exists q. eexists.
    unfold db.GetPendingCertificateRequestByUserID, db.call,
      db.find_pending_request.
    rewrite Hok, Hfind. reflexivity.
Qed.

(** The duplicate-certificate error is raised exactly for a certificate
    that the lookup by owner returns in status valid or expiring. *)
Lemma duplicate_error_iff_lookup (user : User) (reqType : CertificateType)
    (reason : string) (w : World) :
  fst (op.CreateTenantCertificateRequest user reqType reason w)
  = Err (Errorf "certificate already exists for user")
  <->
  exists c,
    fst (db.GetCertificateByOwnerID (user_ID user) w) = Ok c /\
    In c (certificates (store w)) /\
    cert_OwnerID c = user_ID user /\
    (cert_Status c = CertificateStatusValid \/
     cert_Status c = CertificateStatusExpiring).
Proof.
  unfold op.CreateTenantCertificateRequest. plumbing.
  destruct (db.GetCertificateByOwnerID (user_ID user) w) as [[c|e] w1] eqn:Hget;
    simpl.
  - destruct (lookup_row _ _ _ _ _ Hget) as (_ & Hfind & _).
    apply (find_key cert_OwnerID) in Hfind as [Hown Hin].
    destruct (op.blocks c) eqn:Hb.
    + split; [intros _ | reflexivity].
      exists c. apply blocks_true in Hb. auto.
    + split.
      * destruct (db.GetPendingCertificateRequestByUserID (user_ID user) w1)
          as [[p|e2] w2]; simpl; [discriminate|].
        destruct (IsNotFound e2); simpl; [|discriminate].
        rewrite CreateCertificateRequest_result.
        destruct (hd None (faults w2)); discriminate.
      * intros (c' & [= <-] & _ & _ & Hst).
        apply blocks_true in Hst. congruence.
  - split; [|intros (c' & [=] & _)].
    destruct (IsNotFound e); simpl; [|discriminate].
    destruct (db.GetPendingCertificateRequestByUserID (user_ID user) w1)
      as [[p|e2] w2]; simpl; [discriminate|].
    destruct (IsNotFound e2); simpl; [|discriminate].
    rewrite CreateCertificateRequest_result.
    destruct (hd None (faults w2)); discriminate.
Qed.

(** What the first step of tenant request creation decides on.  It fails
    with the error "certificate already exists for user" if and only if
    the lookup by owner returns a certificate of that user whose status is
    valid or expiring.  When the user owns at most one certificate, the
    intended invariant, and the storage answers the lookup, that is: if
    and only if a certificate of the user exists whose status is valid or
    expiring. *)
Theorem duplicate_certificate_error_iff (user : User) (reqType : CertificateType)
    (reason : string) (w : World) :
  (fst (op.CreateTenantCertificateRequest user reqType reason w)
   = Err (Errorf "certificate already exists for user")
   <->
   exists c,
     fst (db.GetCertificateByOwnerID (user_ID user) w) = Ok c /\
     In c (certificates (store w)) /\
     cert_OwnerID c = user_ID user /\
     (cert_Status c = CertificateStatusValid \/
      cert_Status c = CertificateStatusExpiring))
  /\
  (call_ok 0 w -> owns_at_most_one (user_ID user) (store w) ->
   (fst (op.CreateTenantCertificateRequest user reqType reason w)
    = Err (Errorf "certificate already exists for user")
    <->
    exists c,
      In c (certificates (store w)) /\
      cert_OwnerID c = user_ID user /\
      (cert_Status c = CertificateStatusValid \/
       cert_Status c = CertificateStatusExpiring))).
Proof.
  split; [apply duplicate_error_iff_lookup|].
  intros Hok Hone. rewrite duplicate_error_iff_lookup.
  split; [intros (c & _ & H); now exists c|].
  intros (c & Hin & Hown & Hst). exists c. repeat split; try assumption.
  destruct (find_exists (fun x => N.eqb (cert_OwnerID x) (user_ID user))
              _ c Hin) as [c' Hfind]; [now apply N.eqb_eq|].
  destruct (find_key cert_OwnerID _ _ _ Hfind) as [Hown' Hin'].
  assert (c' = c) as -> by (apply Hone; assumption).
  apply call_ok_next in Hok.
  unfold db.GetCertificateByOwnerID, db.call, db.find_certificate_by_owner.
  rewrite Hok, Hfind. reflexivity.
Qed.

Lemma duplicate_certificate_error_iff_witness :
  fst (op.CreateTenantCertificateRequest sample.bob "client" "renewal" sample.world0)
  = Err (Errorf "certificate already exists for user").
Proof.
  apply (duplicate_certificate_error_iff sample.bob "client" "renewal" sample.world0).
  - reflexivity.
  - intros c1 c2 H1 H2 E1 E2.
    destruct H1 as [<-|[<-|[]]]; destruct H2 as [<-|[<-|[]]];
      solve [reflexivity | discriminate].
  - exists sample.bobs_certificate. repeat split; [left; reflexivity | now right].
Defined.

(** The step looks at no certificate but the one the lookup by owner
    returns: when that one is neither valid nor expiring, the request is
    not refused with "certificate already exists for user", although a
    valid or expiring certificate of the user is held in the store. *)
Lemma certificate_behind_the_returned_one_is_missed (user : User)
    (reqType : CertificateType) (reason : string) (w : World)
    (returned held : Certificate) :
  fst (db.GetCertificateByOwnerID (user_ID user) w) = Ok returned ->
  cert_Status returned <> CertificateStatusValid ->
  cert_Status returned <> CertificateStatusExpiring ->
  In held (certificates (store w)) ->
  cert_OwnerID held = user_ID user ->
  cert_Status held = CertificateStatusValid \/
  cert_Status held = CertificateStatusExpiring ->
  fst (op.CreateTenantCertificateRequest user reqType reason w)
  <> Err (Errorf "certificate already exists for user").
Proof.
  intros Hget Hv He _ _ _ Hdup.
  apply duplicate_error_iff_lookup in Hdup as (c & Hc & _ & _ & Hst).
  rewrite Hget in Hc. injection Hc as <-. tauto.
Qed.


(** The spec's scenario: bob's certificate is expiring, his request fails. *)
Example expiring_certificate_blocks :
  fst (op.CreateTenantCertificateRequest sample.bob "client" "renewal" sample.world0)
  = Err (Errorf "certificate already exists for user").
Proof. reflexivity. Qed.

(** Carol's certificate is revoked: her request is created. *)
Example revoked_certificate_does_not_block :
  fst (op.CreateTenantCertificateRequest sample.carol "client" "renewal" sample.world0)
  = Ok (mkCertificateRequest 9 "carol" 12 "client" CertificateStatusPending
          "renewal" "" None "" None "").
Proof. reflexivity. Qed.

(** C4. For a user without a blocking certificate: when the lookup finds a
    pending request of the user, creation fails with "certificate request
    is pending for user" and writes nothing; when it reports that there is
    none, and the insert is carried out by the storage, exactly one request
    is added and returned, with the user's name and id, the given type and
    reason, and status pending. *)
Theorem tenant_request_pending_or_created (user : User)
    (reqType : CertificateType) (reason : string) (w w1 : World)
    (r1 : result Certificate) :
  db.GetCertificateByOwnerID (user_ID user) w = (r1, w1) ->
  no_blocking_certificate r1 ->
  match db.GetPendingCertificateRequestByUserID (user_ID user) w1 with
  | (Ok _, w2) =>
      op.CreateTenantCertificateRequest user reqType reason w
      = (Err (Errorf "certificate request is pending for user"), w2) /\
      store w2 = store w /\ writes w2 = writes w
  | (Err e, w2) =>
      IsNotFound e = true -> call_ok 0 w2 ->
      exists request w3,
        op.CreateTenantCertificateRequest user reqType reason w = (Ok request, w3) /\
        request = mkCertificateRequest (req_seq (store w)) (Username user)
                    (user_ID user) reqType CertificateStatusPending reason
                    "" None "" None "" /\
        requests (store w3) = requests (store w) ++ [request] /\
        certificates (store w3) = certificates (store w) /\
        writes w3 = writes w ++ [CallCreateCertificateRequest (set_req_ID 0 request)]
  end.
Proof.
  intros Hget Hnb.
  assert (Hs1 : store w1 = store w) by exact (lookup_store _ _ _ _ _ Hget).
  destruct (call_world _ _ _ _ _ Hget) as (_ & Ht1 & _ & _).
  assert (Hpre : forall k : M CertificateRequest,
    (r <- catch (db.GetCertificateByOwnerID (user_ID user)) ;;
     match r with
     | Err err => if negb (IsNotFound err)
                  then fail (Wrap err "failed to check existing certificate")
                  else k
     | Ok existingCert =>
         if op.blocks existingCert
         then fail (Errorf "certificate already exists for user")
         else k
     end)%go w = k w1).
  { intros k. plumbing. rewrite Hget. destruct r1 as [c|e]; simpl in Hnb.
    - destruct (op.blocks c) eqn:Hb; [|reflexivity].
      apply blocks_true in Hb. tauto.
    - now rewrite Hnb. }
  unfold op.CreateTenantCertificateRequest. rewrite Hpre. clear Hpre.
  plumbing.
  destruct (db.GetPendingCertificateRequestByUserID (user_ID user) w1)
    as [[p|e] w2] eqn:Hp.
  - assert (Hs2 : store w2 = store w1) by exact (lookup_store _ _ _ _ _ Hp).
    destruct (call_world _ _ _ _ _ Hp) as (_ & Ht2 & _ & _).
    repeat split; [congruence|].
    unfold writes. rewrite Ht2, Ht1, !filter_app. simpl. now rewrite !app_nil_r.
  - intros Hnf Hok. rewrite Hnf. simpl.
    assert (Hs2 : store w2 = store w1) by exact (lookup_store _ _ _ _ _ Hp).
    destruct (call_world _ _ _ _ _ Hp) as (_ & Ht2 & _ & _).
    rewrite CreateCertificateRequest_result.
    apply call_ok_next in Hok. rewrite Hok.
    do 2 eexists. split; [reflexivity|].
    simpl. rewrite Hs2, Hs1. repeat split.
    unfold writes. simpl. rewrite Ht2, Ht1, !filter_app. simpl.
    now rewrite !app_nil_r.
Qed.

Lemma tenant_request_pending_or_created_witness :
  (fst (op.CreateTenantCertificateRequest sample.alice "client" "laptop" sample.world0)
   = Err (Errorf "certificate request is pending for user") /\
   store (snd (op.CreateTenantCertificateRequest sample.alice "client" "laptop"
                 sample.world0)) = sample.store0) /\
  (exists request,
     fst (op.CreateTenantCertificateRequest sample.carol "client" "renewal"
            sample.world0) = Ok request /\
     req_Status request = CertificateStatusPending /\
     req_UserName request = "carol"%string /\
     requests (store (snd (op.CreateTenantCertificateRequest sample.carol "client"
                             "renewal" sample.world0)))
     = requests sample.store0 ++ [request]).
Proof.
  split.
  - destruct (tenant_request_pending_or_created sample.alice "client" "laptop"
                sample.world0 _ _ eq_refl eq_refl) as (H & Hs & _).
    rewrite H. split; [reflexivity | exact Hs].
  - assert (Hnb : no_blocking_certificate (Ok sample.carols_certificate))
      by (split; discriminate).
    destruct (tenant_request_pending_or_created sample.carol "client" "renewal"
                sample.world0 _ _ eq_refl Hnb eq_refl eq_refl)
      as (request & w3 & H & Hr & Hreqs & _).
    exists request. rewrite H. cbn [fst snd]. rewrite Hreqs. subst request.
    repeat split.
Defined.

(** ** The tenant request handler *)

(** C7. When the service answers a tenant request with an error, the
    handler responds with status 400 exactly when the error's message is
    "certificate already exists for user" or "certificate request is
    pending for user", compared as text, and with status 500 for every
    other error of the service. *)
Theorem tenant_handler_error_status (body : handles.TenantRequestBody)
    (user : User) (w w1 : World) (err : error) :
  op.CreateTenantCertificateRequest user (handles.body_Type body)
    (handles.body_Reason body) w = (Err err, w1) ->
  let resp := fst (handles.CreateTenantCertificateRequest (Ok body) user w) in
  let known := Error err = "certificate already exists for user"%string \/
               Error err = "certificate request is pending for user"%string in
  (handles.status resp = 400%Z <-> known) /\
  (~ known -> handles.status resp = 500%Z) /\
  handles.message resp = Error err /\
  handles.data resp = None.
Proof.
  intros Hsvc resp known. subst resp known.
  unfold handles.CreateTenantCertificateRequest. rewrite Hsvc.
  destruct (String.eqb_spec (Error err) "certificate already exists for user")
    as [E1|E1]; simpl.
  - repeat split; auto. tauto.
  - destruct (String.eqb_spec (Error err) "certificate request is pending for user")
      as [E2|E2]; simpl.
    + repeat split; auto. tauto.
    + repeat split; auto; try tauto. discriminate.
Qed.

Lemma tenant_handler_error_status_witness :
  handles.status
    (fst (handles.CreateTenantCertificateRequest
            (Ok (handles.mkTenantRequestBody "client" "renewal"))
            sample.bob sample.world0)) = 400%Z /\
  handles.status
    (fst (handles.CreateTenantCertificateRequest
            (Ok (handles.mkTenantRequestBody "client" "renewal"))
            sample.carol sample.world_second_fails)) = 500%Z.
Proof.
  split.
  - apply (tenant_handler_error_status
             (handles.mkTenantRequestBody "client" "renewal")
             sample.bob sample.world0 _ _ eq_refl).
    left. reflexivity.
  - apply (tenant_handler_error_status
             (handles.mkTenantRequestBody "client" "renewal")
             sample.carol sample.world_second_fails _ _ eq_refl).
    simpl. intros [H|H]; discriminate H.
Defined.

(** ** Writes *)

Lemma UpdateCertificateRequest_result (request : CertificateRequest) (w : World) :
  db.UpdateCertificateRequest request w =
  match hd None (faults w) with
  | Some m =>
      (Err (StorageError m),
       mkWorld (store w) (tl (faults w))
         (trace w ++ [CallUpdateCertificateRequest request]) (clock w) (ticks w))
  | None =>
      (Ok tt,
       mkWorld
         (mkStore (certificates (store w))
            (db.update_row req_ID request (requests (store w)))
            (cert_seq (store w)) (req_seq (store w)))
         (tl (faults w))
         (trace w ++ [CallUpdateCertificateRequest request]) (clock w) (ticks w))
  end.
Proof.
  unfold db.UpdateCertificateRequest, db.call.
  destruct (hd None (faults w)); reflexivity.
Qed.

Lemma UpdateCertificate_result (cert : Certificate) (w : World) :
  db.UpdateCertificate cert w =
  match hd None (faults w) with
  | Some m =>
      (Err (StorageError m),
       mkWorld (store w) (tl (faults w))
         (trace w ++ [CallUpdateCertificate cert]) (clock w) (ticks w))
  | None =>
      (Ok tt,
       mkWorld
         (mkStore (db.update_row cert_ID cert (certificates (store w)))
            (requests (store w)) (cert_seq (store w)) (req_seq (store w)))
         (tl (faults w))
         (trace w ++ [CallUpdateCertificate cert]) (clock w) (ticks w))
  end.
Proof.
  unfold db.UpdateCertificate, db.call.
  destruct (hd None (faults w)); reflexivity.
Qed.

Lemma CreateCertificate_result (cert : Certificate) (w : World) :
  db.CreateCertificate cert w =
  match hd None (faults w) with
  | Some m =>
      (Err (StorageError m),
       mkWorld (store w) (tl (faults w))
         (trace w ++ [CallCreateCertificate cert]) (clock w) (ticks w))
  | None =>
      (Ok (set_cert_ID (cert_seq (store w)) cert),
       mkWorld
         (mkStore (certificates (store w) ++ [set_cert_ID (cert_seq (store w)) cert])
            (requests (store w)) (N.succ (cert_seq (store w))) (req_seq (store w)))
         (tl (faults w))
         (trace w ++ [CallCreateCertificate cert]) (clock w) (ticks w))
  end.
Proof.
  unfold db.CreateCertificate, db.call.
  destruct (hd None (faults w)); reflexivity.
Qed.

Lemma writes_after_read (t : list DbCall) (c : DbCall) (l : list DbCall) :
  is_write c = false ->
  filter is_write ((t ++ [c]) ++ l) = filter is_write t ++ filter is_write l.
Proof.
  intros Hc. rewrite !filter_app. simpl. rewrite Hc. now rewrite app_nil_r.
Qed.

(** ** Rejecting a request *)

(** C5. When the request loaded for [reqID] is pending and the storage
    carries out the update, rejection stores the request with status
    rejected, the rejecter's username, the time of rejection and the given
    reason; the update is its only write, no other request changes and no
    certificate is created.  When the loaded request is not pending,
    rejection fails, writes nothing, and the stored request is unchanged. *)
Theorem reject_pending_or_refuse (reqID : N) (adminUser : User) (reason : string)
    (w w1 : World) (req : CertificateRequest) :
  db.GetCertificateRequestByID reqID w = (Ok req, w1) ->
  (req_Status req = CertificateStatusPending -> call_ok 0 w1 ->
   let rejected :=
     mkCertificateRequest (req_ID req) (req_UserName req) (req_UserID req)
       (req_Type req) CertificateStatusRejected (req_Reason req)
       (req_ApprovedBy req) (req_ApprovedAt req)
       (Username adminUser) (Some (clock w (ticks w))) reason in
   exists w2,
     op.RejectCertificateRequest reqID adminUser reason w = (Ok tt, w2) /\
     db.find_request reqID (store w2) = Some rejected /\
     (forall id, id <> reqID ->
        db.find_request id (store w2) = db.find_request id (store w)) /\
     certificates (store w2) = certificates (store w) /\
     writes w2 = writes w ++ [CallUpdateCertificateRequest rejected])
  /\
  (req_Status req <> CertificateStatusPending ->
   exists err,
     op.RejectCertificateRequest reqID adminUser reason w = (Err err, w1) /\
     Error err = ("request is not pending, current status: "
                  ++ status_string (req_Status req))%string /\
     store w1 = store w /\
     db.find_request reqID (store w1) = Some req /\
     writes w1 = writes w).
Proof.
  intros Hget.
  destruct (lookup_row _ _ _ _ _ Hget) as (_ & Hfind & ->).
  pose proof (find_key req_ID _ _ _ Hfind) as [Hid _].
  split.
  - intros Hst Hok rejected. apply IsPending_true in Hst.
    apply call_ok_next in Hok. cbn [faults] in Hok.
    assert (Hrun : op.RejectCertificateRequest reqID adminUser reason w =
      (Ok tt,
       mkWorld
         (mkStore (certificates (store w))
            (db.update_row req_ID rejected (requests (store w)))
            (cert_seq (store w)) (req_seq (store w)))
         (tl (tl (faults w)))
         ((trace w ++ [CallGetCertificateRequestByID reqID])
            ++ [CallUpdateCertificateRequest rejected])
         (clock w) (S (ticks w)))).
    { unfold op.RejectCertificateRequest. plumbing. rewrite Hget, Hst.
      cbn [negb]. cbv beta iota. rewrite UpdateCertificateRequest_result.
      cbn [faults]. rewrite Hok. reflexivity. }
    eexists. split; [exact Hrun|]. cbn [store requests certificates].
    unfold db.find_request. cbn [requests].
    assert (Hk : req_ID rejected = reqID) by exact Hid.
    repeat split.
    + rewrite <- Hk. apply find_update_row_same with (r := req).
      rewrite Hk. exact Hfind.
    + intros id Hne. apply find_update_row_other. congruence.
    + unfold writes. cbn [trace]. now rewrite writes_after_read.
  - intros Hst. apply IsPending_false in Hst.
    eexists. split.
    + unfold op.RejectCertificateRequest. plumbing. rewrite Hget, Hst.
      reflexivity.
    + cbn [store Error]. repeat split.
      * exact Hfind.
      * unfold writes. cbn [trace]. rewrite filter_app. simpl. apply app_nil_r.
Qed.

Lemma reject_pending_or_refuse_witness :
  (exists w2,
     op.RejectCertificateRequest 7 sample.admin "duplicate" sample.world0 = (Ok tt, w2) /\
     db.find_request 7 (store w2)
     = Some (mkCertificateRequest 7 "alice" 10 "client" CertificateStatusRejected
               "vpn access" "" None "admin" (Some (sample.ticking 0)) "duplicate") /\
     certificates (store w2) = certificates sample.store0) /\
  (exists err,
     fst (op.RejectCertificateRequest 8 sample.admin "duplicate" sample.world0)
     = Err err /\
     store (snd (op.RejectCertificateRequest 8 sample.admin "duplicate" sample.world0))
     = sample.store0).
Proof.
  split.
  - destruct (reject_pending_or_refuse 7 sample.admin "duplicate" sample.world0 _ _ eq_refl)
      as [Hp _].
    destruct (Hp eq_refl eq_refl) as (w2 & Hrun & Hfound & _ & Hcerts & _).
    exists w2. repeat split; assumption.
  - destruct (reject_pending_or_refuse 8 sample.admin "duplicate" sample.world0 _ _ eq_refl)
      as [_ Hn].
    destruct Hn as (err & Hrun & _ & Hstore & _); [discriminate|].
    exists err. rewrite Hrun. split; [reflexivity | exact Hstore].
Defined.

(** ** Revoking a certificate *)

(** C9. When the lookup of [id] finds a certificate and the storage carries
    out the update, revocation succeeds whatever the certificate's status
    was: the stored certificate gets status revoked and keeps its name,
    type, owner, owner id, content, issued date and expiration date; the
    update is the only write, no other certificate and no request
    changes; and revoking a certificate that is already revoked leaves the
    store as it was. *)
Theorem revoke_sets_status_only (id : N) (w w1 : World) (cert : Certificate) :
  db.GetCertificateByID id w = (Ok cert, w1) ->
  call_ok 0 w1 ->
  let revoked :=
    mkCertificate (cert_ID cert) (cert_Name cert) (cert_Type cert)
      CertificateStatusRevoked (cert_Owner cert) (cert_OwnerID cert)
      (cert_Content cert) (cert_IssuedDate cert) (cert_ExpirationDate cert) in
  exists w2,
    op.RevokeCertificate id w = (Ok tt, w2) /\
    db.find_certificate id (store w2) = Some revoked /\
    (forall id', id' <> id ->
       db.find_certificate id' (store w2) = db.find_certificate id' (store w)) /\
    requests (store w2) = requests (store w) /\
    writes w2 = writes w ++ [CallUpdateCertificate revoked] /\
    (cert_Status cert = CertificateStatusRevoked -> store w2 = store w).
Proof.
  intros Hget Hok revoked.
  destruct (lookup_row _ _ _ _ _ Hget) as (_ & Hfind & ->).
  pose proof (find_key cert_ID _ _ _ Hfind) as [Hid _].
  apply call_ok_next in Hok. cbn [faults] in Hok.
  assert (Hrun : op.RevokeCertificate id w =
    (Ok tt,
     mkWorld
       (mkStore (db.update_row cert_ID revoked (certificates (store w)))
          (requests (store w)) (cert_seq (store w)) (req_seq (store w)))
       (tl (tl (faults w)))
       ((trace w ++ [CallGetCertificateByID id]) ++ [CallUpdateCertificate revoked])
       (clock w) (ticks w))).
  { unfold op.RevokeCertificate. plumbing. rewrite Hget.
    rewrite UpdateCertificate_result. cbn [faults]. rewrite Hok. reflexivity. }
  eexists. split; [exact Hrun|]. cbn [store requests certificates].
  unfold db.find_certificate. cbn [certificates].
  assert (Hk : cert_ID revoked = id) by exact Hid.
  repeat split.
  - rewrite <- Hk. apply find_update_row_same with (r := cert).
    rewrite Hk. exact Hfind.
  - intros id' Hne. apply find_update_row_other. congruence.
  - unfold writes. cbn [trace]. now rewrite writes_after_read.
  - intros Hst.
    assert (Hsame : revoked = cert).
    { subst revoked. destruct cert. cbn in Hst |- *. now rewrite Hst. }
    rewrite Hsame. rewrite update_row_same_row.
    + now destruct (store w).
    + rewrite Hid. exact Hfind.
Qed.

Lemma revoke_sets_status_only_witness :
  (exists w2,
     op.RevokeCertificate 3 sample.world0 = (Ok tt, w2) /\
     db.find_certificate 3 (store w2)
     = Some (set_cert_Status CertificateStatusRevoked sample.bobs_certificate) /\
     db.find_certificate 4 (store w2) = Some sample.carols_certificate) /\
  (exists w2,
     op.RevokeCertificate 4 sample.world0 = (Ok tt, w2) /\
     store w2 = sample.store0).
Proof.
  split.
  - destruct (revoke_sets_status_only 3 sample.world0 _ _ eq_refl eq_refl)
      as (w2 & Hrun & Hfound & Hothers & _).
    exists w2. repeat split; [exact Hrun | exact Hfound |].
    rewrite Hothers; [reflexivity | discriminate].
  - destruct (revoke_sets_status_only 4 sample.world0 _ _ eq_refl eq_refl)
      as (w2 & Hrun & _ & _ & _ & _ & Hsame).
    exists w2. split; [exact Hrun | exact (Hsame eq_refl)].
Defined.

(** ** Approving a pending request *)

Lemma call_ok_second (w : World) :
  call_ok 1 w <-> hd None (tl (faults w)) = None.
Proof. unfold call_ok. destruct (faults w) as [|? [|? ?]]; simpl; tauto. Qed.

Lemma call_fails_second (m : string) (w : World) :
  call_fails 1 m w <-> hd None (tl (faults w)) = Some m.
Proof. unfold call_fails. destruct (faults w) as [|? [|? ?]]; simpl; tauto. Qed.

(** Approval of a pending request, up to its two writes. *)
Lemma approve_pending_run (reqID : N) (adminUser : User) (w w1 : World)
    (req : CertificateRequest) :
  db.GetCertificateRequestByID reqID w = (Ok req, w1) ->
  IsPending req = true ->
  op.ApproveAndCreateCertificate reqID adminUser w =
  match db.CreateCertificate
          (mkCertificate 0 (req_UserName req ++ "-" ++ req_Type req ++ "-cert")%string
             (req_Type req) CertificateStatusValid (req_UserName req)
             (req_UserID req) "" (clock w (ticks w))
             (AddDate 1 (clock w (S (ticks w)))))
          (mkWorld (store w1) (faults w1) (trace w1) (clock w)
             (S (S (S (ticks w)))))
  with
  | (Err err, w2) => (Err (Wrap err "failed to create certificate"), w2)
  | (Ok cert, w2) =>
      match db.UpdateCertificateRequest
              (mkCertificateRequest (req_ID req) (req_UserName req)
                 (req_UserID req) (req_Type req) CertificateStatusValid
                 (req_Reason req) (Username adminUser)
                 (Some (clock w (S (S (ticks w)))))
                 (req_RejectedBy req) (req_RejectedAt req)
                 (req_RejectedReason req)) w2
      with
      | (Err err, w3) => (Err (Wrap err "failed to update request"), w3)
      | (Ok _, w3) => (Ok cert, w3)
      end
  end.
Proof.
  intros Hget Hp.
  destruct (lookup_row _ _ _ _ _ Hget) as (_ & _ & ->).
  unfold op.ApproveAndCreateCertificate. plumbing. rewrite Hget, Hp.
  cbn [negb store faults trace clock ticks]. cbv beta iota.
  destruct (db.CreateCertificate _ _) as [[c|e] w2]; [|reflexivity].
  destruct (db.UpdateCertificateRequest _ w2) as [[u|e] w3]; reflexivity.
Qed.

(** C1, as the code has it.  When the request loaded for [reqID] is
    pending and the storage carries out both writes, approval succeeds and
    adds exactly one certificate: named "<userName>-<type>-cert", with the
    request's type, user name and user id, status valid, empty content,
    issued at the first reading of the clock and expiring one year after
    the next reading; and the stored request becomes valid, with the
    approver's username and the time of approval.  The expiration date is
    the issued date plus one year when the two readings agree. *)
Theorem approve_pending_creates_certificate (reqID : N) (adminUser : User)
    (w w1 : World) (req : CertificateRequest) :
  db.GetCertificateRequestByID reqID w = (Ok req, w1) ->
  req_Status req = CertificateStatusPending ->
  call_ok 0 w1 -> call_ok 1 w1 ->
  let issued := clock w (ticks w) in
  let base := clock w (S (ticks w)) in
  let cert :=
    mkCertificate (cert_seq (store w))
      (req_UserName req ++ "-" ++ req_Type req ++ "-cert")%string
      (req_Type req) CertificateStatusValid (req_UserName req) (req_UserID req)
      "" issued (AddDate 1 base) in
  let approved :=
    mkCertificateRequest (req_ID req) (req_UserName req) (req_UserID req)
      (req_Type req) CertificateStatusValid (req_Reason req)
      (Username adminUser) (Some (clock w (S (S (ticks w)))))
      (req_RejectedBy req) (req_RejectedAt req) (req_RejectedReason req) in
  exists w3,
    op.ApproveAndCreateCertificate reqID adminUser w = (Ok cert, w3) /\
    certificates (store w3) = certificates (store w) ++ [cert] /\
    db.find_request reqID (store w3) = Some approved /\
    (forall id, id <> reqID ->
       db.find_request id (store w3) = db.find_request id (store w)) /\
    writes w3 = writes w ++ [CallCreateCertificate (set_cert_ID 0 cert);
                             CallUpdateCertificateRequest approved] /\
    (base = issued -> cert_ExpirationDate cert = AddDate 1 (cert_IssuedDate cert)).
Proof.
  intros Hget Hst Hok0 Hok1 issued base cert approved.
  apply IsPending_true in Hst.
  rewrite (approve_pending_run _ adminUser _ _ _ Hget Hst).
  destruct (lookup_row _ _ _ _ _ Hget) as (_ & Hfind & ->).
  pose proof (find_key req_ID _ _ _ Hfind) as [Hid _].
  apply call_ok_next in Hok0. apply call_ok_second in Hok1.
  cbn [faults store trace] in *.
  rewrite CreateCertificate_result. cbn [faults]. rewrite Hok0.
  rewrite UpdateCertificateRequest_result. cbn [faults]. rewrite Hok1.
  eexists. split; [reflexivity|].
  cbn [store requests certificates trace].
  unfold db.find_request. cbn [requests].
  assert (Hk : req_ID approved = reqID) by exact Hid.
  repeat split.
  - rewrite <- Hk. apply find_update_row_same with (r := req).
    rewrite Hk. exact Hfind.
  - intros id Hne. apply find_update_row_other. cbn [req_ID]. congruence.
  - unfold writes. cbn [trace]. rewrite <- app_assoc.
    now rewrite writes_after_read.
  - intros ->. reflexivity.
Qed.

(** The spec's scenario: request 7 of alice, pending, type client. *)
Lemma approve_pending_creates_certificate_witness :
  exists w3,
    op.ApproveAndCreateCertificate 7 sample.admin sample.world_frozen
    = (Ok (mkCertificate 5 "alice-client-cert" "client" CertificateStatusValid
             "alice" 10 "" (mkTime 2025 6 1 0) (mkTime 2026 6 1 0)), w3) /\
    length (certificates (store w3)) = S (length (certificates sample.store0)) /\
    option_map req_Status (db.find_request 7 (store w3)) = Some CertificateStatusValid /\
    option_map req_ApprovedBy (db.find_request 7 (store w3)) = Some "admin"%string.
Proof.
  destruct (approve_pending_creates_certificate 7 sample.admin sample.world_frozen
              _ _ eq_refl eq_refl eq_refl eq_refl)
    as (w3 & Hrun & Hcerts & Hreq & _).
  exists w3. rewrite Hrun, Hcerts, Hreq. repeat split.
Defined.

(** C1 as stated fails on the expiration date: the clock is read once for
    the issued date and again for the expiration date.  Request 7 is
    pending, the storage answers every call, approval succeeds, and the
    certificate expires a nanosecond later than its issued date plus one
    year. *)
Lemma approve_expiration_counterexample :
  db.find_request 7 (store sample.world0) = Some sample.request7 /\
  req_Status sample.request7 = CertificateStatusPending /\
  faults sample.world0 = [] /\
  exists cert,
    fst (op.ApproveAndCreateCertificate 7 sample.admin sample.world0) = Ok cert /\
    cert_IssuedDate cert = mkTime 2025 6 1 0 /\
    cert_ExpirationDate cert = mkTime 2026 6 1 1 /\
    cert_ExpirationDate cert <> AddDate 1 (cert_IssuedDate cert).
Proof.
  repeat split.
  eexists. split; [reflexivity|]. repeat split. discriminate.
Qed.

(** C6. The certificate insert and the request update are two separate
    writes: when the request loaded for [reqID] is pending, the storage
    carries out the insert and fails the update, approval returns an error
    while the new certificate is in the store and the stored request is
    still the pending one. *)
Theorem approve_update_failure_leaves_certificate (reqID : N) (adminUser : User)
    (w w1 : World) (req : CertificateRequest) (m : string) :
  db.GetCertificateRequestByID reqID w = (Ok req, w1) ->
  req_Status req = CertificateStatusPending ->
  call_ok 0 w1 -> call_fails 1 m w1 ->
  let cert :=
    mkCertificate (cert_seq (store w))
      (req_UserName req ++ "-" ++ req_Type req ++ "-cert")%string
      (req_Type req) CertificateStatusValid (req_UserName req) (req_UserID req)
      "" (clock w (ticks w)) (AddDate 1 (clock w (S (ticks w)))) in
  let approved :=
    mkCertificateRequest (req_ID req) (req_UserName req) (req_UserID req)
      (req_Type req) CertificateStatusValid (req_Reason req)
      (Username adminUser) (Some (clock w (S (S (ticks w)))))
      (req_RejectedBy req) (req_RejectedAt req) (req_RejectedReason req) in
  exists w3,
    op.ApproveAndCreateCertificate reqID adminUser w
    = (Err (Wrap (StorageError m) "failed to update request"), w3) /\
    certificates (store w3) = certificates (store w) ++ [cert] /\
    requests (store w3) = requests (store w) /\
    db.find_request reqID (store w3) = Some req /\
    writes w3 = writes w ++ [CallCreateCertificate (set_cert_ID 0 cert);
                             CallUpdateCertificateRequest approved].
Proof.
  intros Hget Hst Hok0 Hfail cert approved.
  apply IsPending_true in Hst.
  rewrite (approve_pending_run _ adminUser _ _ _ Hget Hst).
  destruct (lookup_row _ _ _ _ _ Hget) as (_ & Hfind & ->).
  apply call_ok_next in Hok0. apply call_fails_second in Hfail.
  cbn [faults store trace] in *.
  rewrite CreateCertificate_result. cbn [faults]. rewrite Hok0.
  rewrite UpdateCertificateRequest_result. cbn [faults]. rewrite Hfail.
  eexists. split; [reflexivity|].
  cbn [store requests certificates trace]. repeat split.
  - exact Hfind.
  - unfold writes. cbn [trace]. rewrite <- app_assoc.
    now rewrite writes_after_read.
Qed.

Lemma approve_update_failure_leaves_certificate_witness :
  exists w3,
    op.ApproveAndCreateCertificate 7 sample.admin sample.world_third_fails
    = (Err (Wrap (StorageError "database is locked") "failed to update request"), w3) /\
    In (mkCertificate 5 "alice-client-cert" "client" CertificateStatusValid
          "alice" 10 "" (mkTime 2025 6 1 0) (mkTime 2026 6 1 1))
       (certificates (store w3)) /\
    option_map req_Status (db.find_request 7 (store w3))
    = Some CertificateStatusPending.
Proof.
  destruct (approve_update_failure_leaves_certificate 7 sample.admin
              sample.world_third_fails _ _ "database is locked"
              eq_refl eq_refl eq_refl eq_refl)
    as (w3 & Hrun & Hcerts & _ & Hreq & _).
  exists w3. rewrite Hrun, Hcerts, Hreq. repeat split.
  apply in_or_app. right. left. reflexivity.
Defined.

(** ** The request state machine *)

(** What rejection does to the request table: nothing, or it overwrites the
    pending request [reqID] with a rejected one. *)
Lemma reject_requests (reqID : N) (adminUser : User) (reason : string) (w : World) :
  let w' := snd (op.RejectCertificateRequest reqID adminUser reason w) in
  requests (store w') = requests (store w) \/
  exists req rejected,
    db.find_request reqID (store w) = Some req /\
    req_Status req = CertificateStatusPending /\
    req_ID rejected = reqID /\
    req_Status rejected = CertificateStatusRejected /\
    requests (store w') = db.update_row req_ID rejected (requests (store w)).
Proof.
  unfold op.RejectCertificateRequest. plumbing.
  destruct (db.GetCertificateRequestByID reqID w) as [[req|e] w1] eqn:Hget.
  - destruct (lookup_row _ _ _ _ _ Hget) as (_ & Hfind & ->).
    pose proof (find_key req_ID _ _ _ Hfind) as [Hid _].
    destruct (IsPending req) eqn:Hp; cbn [negb]; [|left; reflexivity].
    cbv beta iota. rewrite UpdateCertificateRequest_result. cbn [faults].
    destruct (hd None (tl (faults w))); [left; reflexivity|].
    right. exists req.
    exists (set_req_RejectedReason reason
              (set_req_RejectedAt (Some (clock w (ticks w)))
                 (set_req_RejectedBy (Username adminUser)
                    (set_req_Status CertificateStatusRejected req)))).
    cbn [snd store requests].
    repeat split; [exact Hfind | now apply IsPending_true | exact Hid].
  - left. cbn [snd]. now rewrite (lookup_store _ _ _ _ _ Hget).
Qed.

(** What approval does to the request table: nothing, or it overwrites the
    pending request [reqID] with a valid one. *)
Lemma approve_requests (reqID : N) (adminUser : User) (w : World) :
  let w' := snd (op.ApproveAndCreateCertificate reqID adminUser w) in
  requests (store w') = requests (store w) \/
  exists req approved,
    db.find_request reqID (store w) = Some req /\
    req_Status req = CertificateStatusPending /\
    req_ID approved = reqID /\
    req_Status approved = CertificateStatusValid /\
    requests (store w') = db.update_row req_ID approved (requests (store w)).
Proof.
  destruct (db.GetCertificateRequestByID reqID w) as [[req|e] w1] eqn:Hget.
  - destruct (IsPending req) eqn:Hp.
    + cbv zeta. rewrite (approve_pending_run _ adminUser _ _ _ Hget Hp).
      destruct (lookup_row _ _ _ _ _ Hget) as (_ & Hfind & ->).
      pose proof (find_key req_ID _ _ _ Hfind) as [Hid _].
      cbn [store faults trace].
      rewrite CreateCertificate_result. cbn [faults].
      destruct (hd None (tl (faults w))); [left; reflexivity|].
      rewrite UpdateCertificateRequest_result. cbn [faults].
      destruct (hd None (tl (tl (faults w)))); [left; reflexivity|].
      right. exists req.
      exists (mkCertificateRequest (req_ID req) (req_UserName req)
                (req_UserID req) (req_Type req) CertificateStatusValid
                (req_Reason req) (Username adminUser)
                (Some (clock w (S (S (ticks w)))))
                (req_RejectedBy req) (req_RejectedAt req)
                (req_RejectedReason req)).
      cbn [snd store requests].
      repeat split; [exact Hfind | now apply IsPending_true | exact Hid].
    + left. unfold op.ApproveAndCreateCertificate. plumbing.
      rewrite Hget, Hp. cbn [negb snd].
      now rewrite (lookup_store _ _ _ _ _ Hget).
  - left. unfold op.ApproveAndCreateCertificate. plumbing.
    rewrite Hget. cbn [snd]. now rewrite (lookup_store _ _ _ _ _ Hget).
Qed.

(** What tenant request creation does to the request table: nothing, or it
    adds one row at the end. *)
Lemma tenant_request_requests (user : User) (reqType : CertificateType)
    (reason : string) (w : World) :
  let w' := snd (op.CreateTenantCertificateRequest user reqType reason w) in
  requests (store w') = requests (store w) \/
  exists request, requests (store w') = requests (store w) ++ [request].
Proof.
  unfold op.CreateTenantCertificateRequest. plumbing.
  destruct (db.GetCertificateByOwnerID (user_ID user) w) as [r1 w1] eqn:Hget.
  assert (Hs1 : store w1 = store w) by exact (lookup_store _ _ _ _ _ Hget).
  destruct r1 as [c|e]; [destruct (op.blocks c) | destruct (IsNotFound e)];
    cbn [negb snd]; try (left; congruence).
  all: destruct (db.GetPendingCertificateRequestByUserID (user_ID user) w1)
         as [p w2] eqn:Hp;
       pose proof (lookup_store _ _ _ _ _ Hp) as Hs2;
       destruct p as [p|e2]; cbn [snd]; try (left; congruence);
       destruct (IsNotFound e2); cbn [negb snd]; try (left; congruence);
       rewrite CreateCertificateRequest_result;
       destruct (hd None (faults w2)); cbn [snd store requests];
       [left; congruence | right; eexists; rewrite Hs2, Hs1; reflexivity].
Qed.

(** One operation leaves the status of a stored request alone, or takes it
    from pending to valid by approving it, or from pending to rejected by
    rejecting it. *)
Lemma step_status (o : Operation) (w : World) (id : N) (s1 : CertificateStatus) :
  status_of id w = Some s1 ->
  status_of id (step o w) = Some s1 \/
  s1 = CertificateStatusPending /\
  ((exists adminUser, o = Approve id adminUser) /\
   status_of id (step o w) = Some CertificateStatusValid
   \/
   (exists adminUser reason, o = Reject id adminUser reason) /\
   status_of id (step o w) = Some CertificateStatusRejected).
Proof.
  unfold status_of, db.find_request. intros Hs.
  destruct (find (fun r => N.eqb (req_ID r) id) (requests (store w)))
    as [r0|] eqn:Hfind; [|discriminate].
  injection Hs as Hs.
  destruct o as [reqID adminUser | reqID adminUser reason | user reqType reason];
    cbn [step].
  - destruct (approve_requests reqID adminUser w)
      as [-> | (req & approved & Hreq & Hpend & Hid & Hval & ->)].
    + left. now rewrite Hfind, <- Hs.
    + destruct (N.eq_dec id reqID) as [->|Hne].
      * right. unfold db.find_request in Hreq.
        assert (req = r0) as -> by congruence.
        split; [congruence|]. left. split; [now exists adminUser|].
        rewrite <- Hid. rewrite (find_update_row_same req_ID approved _ r0).
        -- cbn. now rewrite Hval.
        -- now rewrite Hid.
      * left. rewrite (find_update_row_other req_ID); [|congruence].
        now rewrite Hfind, <- Hs.
  - destruct (reject_requests reqID adminUser reason w)
      as [-> | (req & rejected & Hreq & Hpend & Hid & Hrej & ->)].
    + left. now rewrite Hfind, <- Hs.
    + destruct (N.eq_dec id reqID) as [->|Hne].
      * right. unfold db.find_request in Hreq.
        assert (req = r0) as -> by congruence.
        split; [congruence|]. right. split; [now exists adminUser, reason|].
        rewrite <- Hid. rewrite (find_update_row_same req_ID rejected _ r0).
        -- cbn. now rewrite Hrej.
        -- now rewrite Hid.
      * left. rewrite (find_update_row_other req_ID); [|congruence].
        now rewrite Hfind, <- Hs.
  - left.
    destruct (tenant_request_requests user reqType reason w) as [-> | [request ->]].
    + now rewrite Hfind, <- Hs.
    + rewrite (find_app_found _ _ _ _ Hfind). now rewrite <- Hs.
Qed.

(** C10. Over any sequence of approvals, rejections and tenant request
    creations, a stored request whose status is valid or rejected keeps
    that status; and the only changes of status one operation makes are
    pending to valid, by approving that request, and pending to rejected,
    by rejecting it. *)
Theorem request_terminal_states_are_final :
  (forall (ops : list Operation) (w : World) (id : N) (st : CertificateStatus),
     terminal st ->
     status_of id w = Some st ->
     status_of id (run ops w) = Some st)
  /\
  (forall (o : Operation) (w : World) (id : N) (s1 s2 : CertificateStatus),
     status_of id w = Some s1 ->
     status_of id (step o w) = Some s2 ->
     s1 <> s2 ->
     s1 = CertificateStatusPending /\
     ((exists adminUser, o = Approve id adminUser) /\ s2 = CertificateStatusValid
      \/
      (exists adminUser reason, o = Reject id adminUser reason) /\
      s2 = CertificateStatusRejected)).
Proof.
  split.
  - intros ops. induction ops as [|o ops IH]; intros w id st Hterm Hs.
    + exact Hs.
    + cbn [run fold_left]. apply IH; [exact Hterm|].
      destruct (step_status o w id st Hs) as [H | [Hpend _]]; [exact H|].
      destruct Hterm; congruence.
  - intros o w id s1 s2 H1 H2 Hne.
    destruct (step_status o w id s1 H1) as [H | [Hpend [[Ho H] | [Ho H]]]].
    + congruence.
    + split; [exact Hpend|]. left. split; [exact Ho | congruence].
    + split; [exact Hpend|]. right. split; [exact Ho | congruence].
Qed.

(** A run on the sample store: request 7 is approved, and neither a later
    rejection, nor a second approval, nor a new request of its owner
    changes it; request 8 stays rejected. *)
Example terminal_requests_stay :
  let w := run [Approve 7 sample.admin;
                Reject 7 sample.admin "changed my mind";
                Approve 8 sample.admin;
                TenantRequest sample.alice "client" "second laptop";
                Approve 7 sample.bob] sample.world0 in
  status_of 7 w = Some CertificateStatusValid /\
  status_of 8 w = Some CertificateStatusRejected /\
  length (certificates (store w)) = 3%nat.
Proof. repeat split. Qed.

(* ------------------------------------------------------------------ *)
(** * Further properties of the service and the handlers *)

(** ** Lookups that find no row *)

(** A lookup the storage answers on a table without a matching row reports
    record-not-found and leaves the world as any lookup does. *)
Lemma lookup_missing {A} (c : DbCall) (sel : Store -> option A) (w : World) :
  call_ok 0 w -> sel (store w) = None ->
  db.call c (fun s => (db.found (sel s), s)) w =
  (Err ErrRecordNotFound,
   mkWorld (store w) (tl (faults w)) (trace w ++ [c]) (clock w) (ticks w)).
Proof.
  intros Hok Hnone. apply call_ok_next in Hok.
  unfold db.call. now rewrite Hok, Hnone.
Qed.

Lemma writes_read_only (w : World) (c : DbCall) :
  is_write c = false ->
  filter is_write (trace w ++ [c]) = writes w.
Proof.
  intros Hc. unfold writes. rewrite filter_app. simpl. rewrite Hc.
  apply app_nil_r.
Qed.

(** ** Updating the details of a certificate *)

(** X1. When the lookup of [id] finds a certificate and the storage carries
    out the update, [UpdateCertificateDetails] stores and returns the
    certificate with the given name and expiration date, whatever they
    are, and with its id, type, status, owner, owner id, content and
    issued date as before; the update is the only write, and no other
    certificate and no request changes. *)
Theorem update_details_changes_name_and_expiration (id : N) (name : string)
    (expirationDate : Time) (w w1 : World) (cert : Certificate) :
  db.GetCertificateByID id w = (Ok cert, w1) ->
  call_ok 0 w1 ->
  let updated :=
    mkCertificate (cert_ID cert) name (cert_Type cert) (cert_Status cert)
      (cert_Owner cert) (cert_OwnerID cert) (cert_Content cert)
      (cert_IssuedDate cert) expirationDate in
  exists w2,
    op.UpdateCertificateDetails id name expirationDate w
    = ((Some updated, None), w2) /\
    db.find_certificate id (store w2) = Some updated /\
    (forall id', id' <> id ->
       db.find_certificate id' (store w2) = db.find_certificate id' (store w)) /\
    requests (store w2) = requests (store w) /\
    writes w2 = writes w ++ [CallUpdateCertificate updated].
Proof.
  intros Hget Hok updated.
  destruct (lookup_row _ _ _ _ _ Hget) as (_ & Hfind & ->).
  pose proof (find_key cert_ID _ _ _ Hfind) as [Hid _].
  apply call_ok_next in Hok. cbn [faults] in Hok.
  assert (Hrun : op.UpdateCertificateDetails id name expirationDate w =
    ((Some updated, None),
     mkWorld
       (mkStore (db.update_row cert_ID updated (certificates (store w)))
          (requests (store w)) (cert_seq (store w)) (req_seq (store w)))
       (tl (tl (faults w)))
       ((trace w ++ [CallGetCertificateByID id]) ++ [CallUpdateCertificate updated])
       (clock w) (ticks w))).
  { unfold op.UpdateCertificateDetails. rewrite Hget.
    rewrite UpdateCertificate_result. cbn [faults]. rewrite Hok. reflexivity. }
  eexists. split; [exact Hrun|]. cbn [store requests certificates].
  unfold db.find_certificate. cbn [certificates].
  assert (Hk : cert_ID updated = id) by exact Hid.
  repeat split.
  - rewrite <- Hk. apply find_update_row_same with (r := cert).
    rewrite Hk. exact Hfind.
  - intros id' Hne. apply find_update_row_other. congruence.
  - unfold writes. cbn [trace]. now rewrite writes_after_read.
Qed.

Lemma update_details_changes_name_and_expiration_witness :
  exists w2,
    op.UpdateCertificateDetails 3 "bob-2023" (mkTime 2023 1 1 0) sample.world0
    = ((Some (mkCertificate 3 "bob-2023" "server" CertificateStatusExpiring
                "bob" 11 "" (sample.noon 2024 6 2 0) (mkTime 2023 1 1 0)),
        None), w2) /\
    db.find_certificate 4 (store w2) = Some sample.carols_certificate.
Proof.
  destruct (update_details_changes_name_and_expiration 3 "bob-2023"
              (mkTime 2023 1 1 0) sample.world0 _ _ eq_refl eq_refl)
    as (w2 & Hrun & _ & Hothers & _).
  exists w2. split; [exact Hrun|].
  rewrite Hothers; [reflexivity | discriminate].
Defined.

(** X2. When the lookup of [id] finds a certificate and the storage fails
    the update, [UpdateCertificateDetails] returns the storage's error
    together with the certificate carrying the new name and expiration
    date, while the store still holds the certificate as it was. *)
Theorem update_details_failure_returns_unsaved_certificate (id : N)
    (name : string) (expirationDate : Time) (w w1 : World)
    (cert : Certificate) (m : string) :
  db.GetCertificateByID id w = (Ok cert, w1) ->
  call_fails 0 m w1 ->
  exists w2,
    op.UpdateCertificateDetails id name expirationDate w
    = ((Some (mkCertificate (cert_ID cert) name (cert_Type cert)
                (cert_Status cert) (cert_Owner cert) (cert_OwnerID cert)
                (cert_Content cert) (cert_IssuedDate cert) expirationDate),
        Some (StorageError m)), w2) /\
    store w2 = store w /\
    db.find_certificate id (store w2) = Some cert.
Proof.
  intros Hget Hfail.
  destruct (lookup_row _ _ _ _ _ Hget) as (_ & Hfind & ->).
  assert (Hhd : hd None (tl (faults w)) = Some m).
  { unfold call_fails in Hfail. cbn [faults] in Hfail.
    destruct (tl (faults w)); [discriminate | exact Hfail]. }
  eexists. split.
  - unfold op.UpdateCertificateDetails. rewrite Hget.
    rewrite UpdateCertificate_result. cbn [faults]. rewrite Hhd. reflexivity.
  - cbn [store]. split; [reflexivity | exact Hfind].
Qed.

Lemma update_details_failure_returns_unsaved_certificate_witness :
  exists w2,
    fst (op.UpdateCertificateDetails 3 "bob-2023" (mkTime 2023 1 1 0)
           sample.world_second_fails)
    = (Some (mkCertificate 3 "bob-2023" "server" CertificateStatusExpiring
               "bob" 11 "" (sample.noon 2024 6 2 0) (mkTime 2023 1 1 0)),
       Some (StorageError "database is locked")) /\
    snd (op.UpdateCertificateDetails 3 "bob-2023" (mkTime 2023 1 1 0)
           sample.world_second_fails) = w2 /\
    db.find_certificate 3 (store w2) = Some sample.bobs_certificate.
Proof.
  destruct (update_details_failure_returns_unsaved_certificate 3 "bob-2023"
              (mkTime 2023 1 1 0) sample.world_second_fails _ _
              "database is locked" eq_refl eq_refl)
    as (w2 & Hrun & _ & Hfind).
  exists w2. rewrite Hrun. repeat split. exact Hfind.
Defined.

(** X3. When no certificate has the id and the storage answers the lookup,
    [RevokeCertificate] and [UpdateCertificateDetails] both return the
    bare record-not-found error of the lookup, without a message of their
    own, and write nothing. *)
Theorem missing_certificate_is_bare_not_found (id : N) (name : string)
    (expirationDate : Time) (w : World) :
  call_ok 0 w ->
  db.find_certificate id (store w) = None ->
  exists w1,
    op.RevokeCertificate id w = (Err ErrRecordNotFound, w1) /\
    op.UpdateCertificateDetails id name expirationDate w
    = ((None, Some ErrRecordNotFound), w1) /\
    store w1 = store w /\
    writes w1 = writes w.
Proof.
  intros Hok Hnone.
  pose proof (lookup_missing (CallGetCertificateByID id)
                (db.find_certificate id) w Hok Hnone) as Hget.
  exists (mkWorld (store w) (tl (faults w))
            (trace w ++ [CallGetCertificateByID id]) (clock w) (ticks w)).
  repeat split.
  - unfold op.RevokeCertificate. plumbing.
    unfold db.GetCertificateByID. rewrite Hget. reflexivity.
  - unfold op.UpdateCertificateDetails, db.GetCertificateByID.
    rewrite Hget. reflexivity.
  - cbn [trace]. now apply writes_read_only.
Qed.

Lemma missing_certificate_is_bare_not_found_witness :
  fst (op.RevokeCertificate 99 sample.world0) = Err ErrRecordNotFound /\
  fst (op.UpdateCertificateDetails 99 "x" (mkTime 2030 1 1 0) sample.world0)
  = (None, Some ErrRecordNotFound).
Proof.
  destruct (missing_certificate_is_bare_not_found 99 "x" (mkTime 2030 1 1 0)
              sample.world0 eq_refl eq_refl) as (w1 & Hr & Hu & _).
  rewrite Hr, Hu. split; reflexivity.
Defined.

(** ** Requests that cannot be loaded *)


(** X4. When no request has the id and the storage answers the lookup,
    approval and rejection both fail with the message "failed to get
    request by id: <id>: record not found"; the error still counts as
    record-not-found under [errors.Is]; and nothing is written. *)
Theorem missing_request_error (reqID : N) (adminUser : User) (reason : string)
    (w : World) :
  call_ok 0 w ->
  db.find_request reqID (store w) = None ->
  exists err w1,
    op.ApproveAndCreateCertificate reqID adminUser w = (Err err, w1) /\
    op.RejectCertificateRequest reqID adminUser reason w = (Err err, w1) /\
    Error err = ("failed to get request by id: " ++ op.fmt_d reqID
                 ++ ": record not found")%string /\
    IsNotFound err = true /\
    store w1 = store w /\
    writes w1 = writes w.
Proof.
  intros Hok Hnone.
  pose proof (lookup_missing (CallGetCertificateRequestByID reqID)
                (db.find_request reqID) w Hok Hnone) as Hget.
  exists (Wrap ErrRecordNotFound ("failed to get request by id: " ++ op.fmt_d reqID)%string).
  exists (mkWorld (store w) (tl (faults w))
            (trace w ++ [CallGetCertificateRequestByID reqID]) (clock w) (ticks w)).
  repeat split.
  - unfold op.ApproveAndCreateCertificate. plumbing.
    unfold db.GetCertificateRequestByID. rewrite Hget. reflexivity.
  - unfold op.RejectCertificateRequest. plumbing.
    unfold db.GetCertificateRequestByID. rewrite Hget. reflexivity.
  - unfold writes. cbn [trace]. now apply writes_read_only.
Qed.

Lemma missing_request_error_witness :
  exists err,
    fst (op.ApproveAndCreateCertificate 99 sample.admin sample.world0) = Err err /\
    fst (op.RejectCertificateRequest 99 sample.admin "no" sample.world0) = Err err /\
    Error err = "failed to get request by id: 99: record not found"%string.
Proof.
  destruct (missing_request_error 99 sample.admin "no" sample.world0
              eq_refl eq_refl) as (err & w1 & Ha & Hr & Hmsg & _).
  exists err. rewrite Ha, Hr, Hmsg. repeat split.
Defined.

(** ** A failed insert during approval *)

(** X5. When the request loaded for [reqID] is pending and the storage
    fails the certificate insert, approval fails with "failed to create
    certificate: <storage message>", the request update is not attempted,
    and the store is unchanged: no certificate, and the request still
    pending. *)
Theorem approve_insert_failure_changes_nothing (reqID : N) (adminUser : User)
    (w w1 : World) (req : CertificateRequest) (m : string) :
  db.GetCertificateRequestByID reqID w = (Ok req, w1) ->
  req_Status req = CertificateStatusPending ->
  call_fails 0 m w1 ->
  exists err w2,
    op.ApproveAndCreateCertificate reqID adminUser w = (Err err, w2) /\
    Error err = ("failed to create certificate: " ++ m)%string /\
    store w2 = store w /\
    db.find_request reqID (store w2) = Some req /\
    exists cert,
      trace w2 = trace w ++ [CallGetCertificateRequestByID reqID;
                             CallCreateCertificate cert].
Proof.
  intros Hget Hst Hfail. apply IsPending_true in Hst.
  destruct (lookup_row _ _ _ _ _ Hget) as (_ & Hfind & Hw1).
  assert (Hhd : hd None (faults w1) = Some m).
  { unfold call_fails in Hfail. destruct (faults w1); [discriminate | exact Hfail]. }
  exists (Wrap (StorageError m) "failed to create certificate"). eexists.
  split.
  - rewrite (approve_pending_run _ adminUser _ _ _ Hget Hst).
    rewrite CreateCertificate_result. cbn [faults]. rewrite Hhd. reflexivity.
  - subst w1. cbn [store trace Error]. repeat split; [exact Hfind|].
    eexists. now rewrite <- app_assoc.
Qed.

Lemma approve_insert_failure_changes_nothing_witness :
  exists err,
    fst (op.ApproveAndCreateCertificate 7 sample.admin sample.world_second_fails)
    = Err err /\
    Error err = "failed to create certificate: database is locked"%string /\
    store (snd (op.ApproveAndCreateCertificate 7 sample.admin
                  sample.world_second_fails)) = sample.store0.
Proof.
  destruct (approve_insert_failure_changes_nothing 7 sample.admin
              sample.world_second_fails _ _ "database is locked"
              eq_refl eq_refl eq_refl)
    as (err & w2 & Hrun & Hmsg & Hstore & _).
  exists err. rewrite Hrun. repeat split; assumption.
Defined.

(** ** Requests that are decided stay decided *)

Lemma lookup_found {A} (c : DbCall) (sel : Store -> option A) (w : World) (a : A) :
  call_ok 0 w -> sel (store w) = Some a ->
  db.call c (fun s => (db.found (sel s), s)) w =
  (Ok a, mkWorld (store w) (tl (faults w)) (trace w ++ [c]) (clock w) (ticks w)).
Proof.
  intros Hok Hsome. apply call_ok_next in Hok.
  unfold db.call. now rewrite Hok, Hsome.
Qed.

(** A stored request that is not pending is refused by approval and by
    rejection alike, with the same error, and nothing is written. *)
Lemma decided_request_refused (reqID : N) (adminUser : User) (reason : string)
    (w : World) (req : CertificateRequest) :
  call_ok 0 w ->
  db.find_request reqID (store w) = Some req ->
  req_Status req <> CertificateStatusPending ->
  exists w1,
    op.ApproveAndCreateCertificate reqID adminUser w
    = (Err (Errorf ("request is not pending, current status: "
                    ++ status_string (req_Status req))%string), w1) /\
    op.RejectCertificateRequest reqID adminUser reason w
    = (Err (Errorf ("request is not pending, current status: "
                    ++ status_string (req_Status req))%string), w1) /\
    store w1 = store w /\
    writes w1 = writes w.
Proof.
  intros Hok Hfind Hst. apply IsPending_false in Hst.
  pose proof (lookup_found (CallGetCertificateRequestByID reqID)
                (db.find_request reqID) w req Hok Hfind) as Hget.
  exists (mkWorld (store w) (tl (faults w))
            (trace w ++ [CallGetCertificateRequestByID reqID]) (clock w) (ticks w)).
  repeat split.
  - unfold op.ApproveAndCreateCertificate. plumbing.
    unfold db.GetCertificateRequestByID. rewrite Hget, Hst. reflexivity.
  - unfold op.RejectCertificateRequest. plumbing.
    unfold db.GetCertificateRequestByID. rewrite Hget, Hst. reflexivity.
  - unfold writes. cbn [trace]. now apply writes_read_only.
Qed.

(** What a successful approval did. *)
Lemma approve_success_inv (reqID : N) (adminUser : User) (w w' : World)
    (cert : Certificate) :
  op.ApproveAndCreateCertificate reqID adminUser w = (Ok cert, w') ->
  exists req approved,
    db.find_request reqID (store w) = Some req /\
    req_Status req = CertificateStatusPending /\
    req_ID approved = reqID /\
    req_Status approved = CertificateStatusValid /\
    req_UserID approved = req_UserID req /\
    requests (store w') = db.update_row req_ID approved (requests (store w)) /\
    certificates (store w') = certificates (store w) ++ [cert] /\
    cert_OwnerID cert = req_UserID req /\
    freshly_issued cert.
Proof.
  intros Hrun.
  destruct (db.GetCertificateRequestByID reqID w) as [[req|e] w1] eqn:Hget.
  - destruct (IsPending req) eqn:Hp.
    + rewrite (approve_pending_run _ adminUser _ _ _ Hget Hp) in Hrun.
      destruct (lookup_row _ _ _ _ _ Hget) as (_ & Hfind & ->).
      pose proof (find_key req_ID _ _ _ Hfind) as [Hid _].
      cbn [store faults trace] in Hrun.
      rewrite CreateCertificate_result in Hrun. cbn [faults] in Hrun.
      destruct (hd None (tl (faults w))); [discriminate|].
      rewrite UpdateCertificateRequest_result in Hrun. cbn [faults] in Hrun.
      destruct (hd None (tl (tl (faults w)))); [discriminate|].
      injection Hrun as <- <-.
      exists req.
      exists (mkCertificateRequest (req_ID req) (req_UserName req)
                (req_UserID req) (req_Type req) CertificateStatusValid
                (req_Reason req) (Username adminUser)
                (Some (clock w (S (S (ticks w)))))
                (req_RejectedBy req) (req_RejectedAt req)
                (req_RejectedReason req)).
      cbn [store requests certificates].
      repeat split; [exact Hfind | now apply IsPending_true | exact Hid].
    + unfold op.ApproveAndCreateCertificate in Hrun. revert Hrun. plumbing.
      rewrite Hget, Hp. discriminate.
  - unfold op.ApproveAndCreateCertificate in Hrun. revert Hrun. plumbing.
    rewrite Hget. discriminate.
Qed.

(** What a successful rejection did. *)
Lemma reject_success_inv (reqID : N) (adminUser : User) (reason : string)
    (w w' : World) :
  op.RejectCertificateRequest reqID adminUser reason w = (Ok tt, w') ->
  exists req rejected,
    db.find_request reqID (store w) = Some req /\
    req_Status req = CertificateStatusPending /\
    req_ID rejected = reqID /\
    req_Status rejected = CertificateStatusRejected /\
    requests (store w') = db.update_row req_ID rejected (requests (store w)) /\
    certificates (store w') = certificates (store w).
Proof.
  unfold op.RejectCertificateRequest. plumbing.
  destruct (db.GetCertificateRequestByID reqID w) as [[req|e] w1] eqn:Hget;
    [|discriminate].
  destruct (lookup_row _ _ _ _ _ Hget) as (_ & Hfind & ->).
  pose proof (find_key req_ID _ _ _ Hfind) as [Hid _].
  destruct (IsPending req) eqn:Hp; cbn [negb]; [|discriminate].
  cbv beta iota. rewrite UpdateCertificateRequest_result. cbn [faults].
  destruct (hd None (tl (faults w))); [discriminate|].
  intros [= <-]. exists req.
  exists (set_req_RejectedReason reason
            (set_req_RejectedAt (Some (clock w (ticks w)))
               (set_req_RejectedBy (Username adminUser)
                  (set_req_Status CertificateStatusRejected req)))).
  cbn [store requests certificates].
  repeat split; [exact Hfind | now apply IsPending_true | exact Hid].
Qed.

(** X6. After a successful approval of a request, any further approval or
    rejection of it that gets its lookup answered fails with "request is
    not pending, current status: valid" and leaves the store as the first
    approval left it: no second certificate is issued. *)
Theorem approved_request_is_closed (reqID : N) (adminUser again : User)
    (reason : string) (w w' : World) (cert : Certificate) :
  op.ApproveAndCreateCertificate reqID adminUser w = (Ok cert, w') ->
  call_ok 0 w' ->
  exists w1,
    op.ApproveAndCreateCertificate reqID again w'
    = (Err (Errorf "request is not pending, current status: valid"), w1) /\
    op.RejectCertificateRequest reqID again reason w'
    = (Err (Errorf "request is not pending, current status: valid"), w1) /\
    store w1 = store w'.
Proof.
  intros Hrun Hok.
  destruct (approve_success_inv _ _ _ _ _ Hrun)
    as (req & approved & Hfind & _ & Hid & Hst & _ & Hreqs & _).
  assert (Hnow : db.find_request reqID (store w') = Some approved).
  { unfold db.find_request in *. rewrite Hreqs, <- Hid.
    apply find_update_row_same with (r := req). now rewrite Hid. }
  destruct (decided_request_refused reqID again reason w' approved Hok Hnow)
    as (w1 & Ha & Hr & Hs & _); [rewrite Hst; discriminate|].
  rewrite Hst in Ha, Hr. exists w1. auto.
Qed.

Lemma approved_request_is_closed_witness :
  let w' := snd (op.ApproveAndCreateCertificate 7 sample.admin sample.world0) in
  fst (op.ApproveAndCreateCertificate 7 sample.bob w')
  = Err (Errorf "request is not pending, current status: valid") /\
  fst (op.RejectCertificateRequest 7 sample.bob "late" w')
  = Err (Errorf "request is not pending, current status: valid") /\
  length (certificates (store (snd (op.ApproveAndCreateCertificate 7 sample.bob w'))))
  = 3%nat.
Proof.
  intros w'.
  destruct (approved_request_is_closed 7 sample.admin sample.bob "late"
              sample.world0 w' _ eq_refl eq_refl) as (w1 & Ha & Hr & Hs).
  rewrite Ha, Hr. cbn [fst snd]. rewrite Hs. repeat split.
Defined.

(** X7. After a successful rejection of a request, any further approval or
    rejection of it that gets its lookup answered fails with "request is
    not pending, current status: rejected" and writes nothing: a rejected
    request never yields a certificate. *)
Theorem rejected_request_is_closed (reqID : N) (adminUser again : User)
    (reason reason' : string) (w w' : World) :
  op.RejectCertificateRequest reqID adminUser reason w = (Ok tt, w') ->
  call_ok 0 w' ->
  exists w1,
    op.ApproveAndCreateCertificate reqID again w'
    = (Err (Errorf "request is not pending, current status: rejected"), w1) /\
    op.RejectCertificateRequest reqID again reason' w'
    = (Err (Errorf "request is not pending, current status: rejected"), w1) /\
    store w1 = store w' /\
    certificates (store w1) = certificates (store w).
Proof.
  intros Hrun Hok.
  destruct (reject_success_inv _ _ _ _ _ Hrun)
    as (req & rejected & Hfind & _ & Hid & Hst & Hreqs & Hcerts).
  assert (Hnow : db.find_request reqID (store w') = Some rejected).
  { unfold db.find_request in *. rewrite Hreqs, <- Hid.
    apply find_update_row_same with (r := req). now rewrite Hid. }
  destruct (decided_request_refused reqID again reason' w' rejected Hok Hnow)
    as (w1 & Ha & Hr & Hs & _); [rewrite Hst; discriminate|].
  rewrite Hst in Ha, Hr. exists w1. repeat split; try assumption.
  now rewrite Hs.
Qed.

Lemma rejected_request_is_closed_witness :
  let w' := snd (op.RejectCertificateRequest 7 sample.admin "duplicate" sample.world0) in
  fst (op.ApproveAndCreateCertificate 7 sample.admin w')
  = Err (Errorf "request is not pending, current status: rejected") /\
  certificates (store (snd (op.ApproveAndCreateCertificate 7 sample.admin w')))
  = certificates sample.store0.
Proof.
  intros w'.
  destruct (rejected_request_is_closed 7 sample.admin sample.admin "duplicate" "x"
              sample.world0 w' eq_refl eq_refl) as (w1 & Ha & _ & _ & Hc).
  rewrite Ha. cbn [fst snd]. split; [reflexivity | exact Hc].
Defined.

(** ** How the operations compose *)

Lemma lookup_not_found_inv {A} (c : DbCall) (sel : Store -> option A)
    (w w1 : World) (e : error) :
  db.call c (fun s => (db.found (sel s), s)) w = (Err e, w1) ->
  IsNotFound e = true ->
  hd None (faults w) = None /\ sel (store w) = None /\
  w1 = mkWorld (store w) (tl (faults w)) (trace w ++ [c]) (clock w) (ticks w).
Proof.
  unfold db.call. destruct (hd None (faults w)) as [m|].
  - intros [= <- <-]. discriminate.
  - destruct (sel (store w)); simpl; [discriminate|].
    intros [= <- <-] _. auto.
Qed.

Lemma find_app_none {A} (f : A -> bool) (l l' : list A) :
  find f l = None -> find f (l ++ l') = find f l'.
Proof.
  induction l as [|y t IH]; simpl; [reflexivity|].
  destruct (f y); [discriminate | exact IH].
Qed.

(** The row that two lookups agree on is still what the second lookup
    finds after it has been overwritten, when the new row matches too. *)
Lemma find_update_row_first {A} (key : A -> N) (f : A -> bool)
    (x c : A) (l : list A) :
  find (fun y => N.eqb (key y) (key x)) l = Some c ->
  find f l = Some c ->
  f x = true ->
  find f (db.update_row key x l) = Some x.
Proof.
  intros Hk Hf Hx. induction l as [|y t IH]; simpl in *; [discriminate|].
  destruct (N.eqb (key y) (key x)) eqn:E.
  - simpl. now rewrite Hx.
  - destruct (f y) eqn:Ef.
    + injection Hf as ->. apply find_some in Hk as [_ Hk]. congruence.
    + simpl. rewrite Ef. now apply IH.
Qed.

(** What a successful tenant request found and did. *)
Lemma tenant_success_inv (user : User) (reqType : CertificateType)
    (reason : string) (w w' : World) (request : CertificateRequest) :
  op.CreateTenantCertificateRequest user reqType reason w = (Ok request, w') ->
  (forall c, db.find_certificate_by_owner (user_ID user) (store w) = Some c ->
             op.blocks c = false) /\
  db.find_pending_request (user_ID user) (store w) = None /\
  request = mkCertificateRequest (req_seq (store w)) (Username user)
              (user_ID user) reqType CertificateStatusPending reason
              "" None "" None "" /\
  certificates (store w') = certificates (store w) /\
  requests (store w') = requests (store w) ++ [request].
Proof.
  unfold op.CreateTenantCertificateRequest. plumbing.
  destruct (db.GetCertificateByOwnerID (user_ID user) w) as [[c|e] w1] eqn:Hget.
  - destruct (lookup_row _ _ _ _ _ Hget) as (_ & Hfind & ->).
    destruct (op.blocks c) eqn:Hb; [discriminate|].
    destruct (db.GetPendingCertificateRequestByUserID (user_ID user) _)
      as [[p|e2] w2] eqn:Hp; [discriminate|].
    destruct (IsNotFound e2) eqn:Hnf; cbn [negb]; [|discriminate].
    destruct (lookup_not_found_inv _ _ _ _ _ Hp Hnf) as (_ & Hnone & ->).
    rewrite CreateCertificateRequest_result. cbn [faults store].
    destruct (hd None (tl (tl (faults w)))); [discriminate|].
    intros [= <- <-]. cbn [store certificates requests] in *.
    repeat split; [|exact Hnone].
    intros c' Hc'. congruence.
  - destruct (IsNotFound e) eqn:Hnf0; cbn [negb]; [|discriminate].
    destruct (lookup_not_found_inv _ _ _ _ _ Hget Hnf0) as (_ & Hnone0 & ->).
    destruct (db.GetPendingCertificateRequestByUserID (user_ID user) _)
      as [[p|e2] w2] eqn:Hp; [discriminate|].
    destruct (IsNotFound e2) eqn:Hnf; cbn [negb]; [|discriminate].
    destruct (lookup_not_found_inv _ _ _ _ _ Hp Hnf) as (_ & Hnone & ->).
    rewrite CreateCertificateRequest_result. cbn [faults store].
    destruct (hd None (tl (tl (faults w)))); [discriminate|].
    intros [= <- <-]. cbn [store certificates requests] in *.
    repeat split; [|exact Hnone].
    intros c' Hc'. congruence.
Qed.

(** X8. After a tenant request has been created, a further tenant request
    of the same user, of any type and reason, whose two lookups the storage
    answers, fails with "certificate request is pending for user" and
    leaves the store unchanged. *)
Theorem second_tenant_request_is_refused (user : User)
    (reqType reqType' : CertificateType) (reason reason' : string)
    (w w' : World) (request : CertificateRequest) :
  op.CreateTenantCertificateRequest user reqType reason w = (Ok request, w') ->
  call_ok 0 w' -> call_ok 1 w' ->
  exists w2,
    op.CreateTenantCertificateRequest user reqType' reason' w'
    = (Err (Errorf "certificate request is pending for user"), w2) /\
    store w2 = store w'.
Proof.
  intros Hrun Hok0 Hok1.
  destruct (tenant_success_inv _ _ _ _ _ _ Hrun)
    as (Hnb & Hnone & Hreq & Hcerts & Hreqs).
  assert (Hpend : db.find_pending_request (user_ID user) (store w') = Some request).
  { unfold db.find_pending_request in *. rewrite Hreqs.
    rewrite (find_app_none _ _ _ Hnone). rewrite Hreq. cbn.
    now rewrite N.eqb_refl. }
  assert (Hown : db.find_certificate_by_owner (user_ID user) (store w')
                 = db.find_certificate_by_owner (user_ID user) (store w)).
  { unfold db.find_certificate_by_owner. now rewrite Hcerts. }
  apply call_ok_second in Hok1.
  set (w1 := mkWorld (store w') (tl (faults w'))
               (trace w' ++ [CallGetCertificateByOwnerID (user_ID user)])
               (clock w') (ticks w')).
  assert (Hok1' : call_ok 0 w1) by (apply call_ok_next; exact Hok1).
  pose proof (lookup_found
                (CallGetPendingCertificateRequestByUserID (user_ID user))
                (db.find_pending_request (user_ID user)) w1 request Hok1' Hpend)
    as Hp.
  eexists.
  unfold op.CreateTenantCertificateRequest. plumbing.
  unfold db.GetCertificateByOwnerID.
  destruct (db.find_certificate_by_owner (user_ID user) (store w')) as [c|] eqn:Hf.
  - rewrite (lookup_found _ (db.find_certificate_by_owner (user_ID user))
               w' c Hok0 Hf).
    rewrite (Hnb c) by congruence. fold w1.
    unfold db.GetPendingCertificateRequestByUserID. rewrite Hp.
    split; reflexivity.
  - rewrite (lookup_missing _ (db.find_certificate_by_owner (user_ID user))
               w' Hok0 Hf).
    cbn [IsNotFound is_sentinel negb]. fold w1.
    unfold db.GetPendingCertificateRequestByUserID. rewrite Hp.
    split; reflexivity.
Qed.

Lemma second_tenant_request_is_refused_witness :
  let w' := snd (op.CreateTenantCertificateRequest sample.carol "client" "renewal"
                   sample.world0) in
  fst (op.CreateTenantCertificateRequest sample.carol "server" "another" w')
  = Err (Errorf "certificate request is pending for user") /\
  length (requests (store
            (snd (op.CreateTenantCertificateRequest sample.carol "server" "another" w'))))
  = 3%nat.
Proof.
  intros w'.
  destruct (second_tenant_request_is_refused sample.carol "client" "server"
              "renewal" "another" sample.world0 w' _ eq_refl eq_refl eq_refl)
    as (w2 & Hrun & Hs).
  rewrite Hrun. cbn [fst snd]. rewrite Hs. split; reflexivity.
Defined.

(** X9. After a request of a user who owned no certificate has been
    approved, a tenant request of that user whose lookup by owner the
    storage answers fails with "certificate already exists for user", and
    the store is unchanged. *)
Theorem approval_blocks_new_requests (reqID : N) (adminUser user : User)
    (reqType : CertificateType) (reason : string) (w w' : World)
    (cert : Certificate) :
  op.ApproveAndCreateCertificate reqID adminUser w = (Ok cert, w') ->
  db.find_certificate_by_owner (cert_OwnerID cert) (store w) = None ->
  user_ID user = cert_OwnerID cert ->
  call_ok 0 w' ->
  exists w1,
    op.CreateTenantCertificateRequest user reqType reason w'
    = (Err (Errorf "certificate already exists for user"), w1) /\
    store w1 = store w'.
Proof.
  intros Hrun Hnone Hu Hok.
  destruct (approve_success_inv _ _ _ _ _ Hrun)
    as (req & approved & _ & _ & _ & _ & _ & _ & Hcerts & _ & Hvalid & _).
  assert (Hf : db.find_certificate_by_owner (user_ID user) (store w') = Some cert).
  { unfold db.find_certificate_by_owner in *. rewrite Hcerts, Hu.
    rewrite (find_app_none _ _ _ Hnone). cbn. now rewrite N.eqb_refl. }
  eexists.
  unfold op.CreateTenantCertificateRequest. plumbing.
  unfold db.GetCertificateByOwnerID.
  rewrite (lookup_found _ (db.find_certificate_by_owner (user_ID user))
             w' cert Hok Hf).
  assert (op.blocks cert = true) as -> by (apply blocks_true; now left).
  split; reflexivity.
Qed.

Lemma approval_blocks_new_requests_witness :
  let w' := snd (op.ApproveAndCreateCertificate 7 sample.admin sample.world0) in
  fst (op.CreateTenantCertificateRequest sample.alice "client" "again" w')
  = Err (Errorf "certificate already exists for user").
Proof.
  intros w'.
  destruct (approval_blocks_new_requests 7 sample.admin sample.alice "client"
              "again" sample.world0 w' _ eq_refl eq_refl eq_refl eq_refl)
    as (w1 & Hrun & _).
  now rewrite Hrun.
Defined.

(** What a successful revocation did. *)
Lemma revoke_success_inv (id : N) (w w' : World) :
  op.RevokeCertificate id w = (Ok tt, w') ->
  exists c,
    db.find_certificate id (store w) = Some c /\
    certificates (store w')
    = db.update_row cert_ID (set_cert_Status CertificateStatusRevoked c)
        (certificates (store w)).
Proof.
  unfold op.RevokeCertificate. plumbing.
  destruct (db.GetCertificateByID id w) as [[c|e] w1] eqn:Hget; [|discriminate].
  destruct (lookup_row _ _ _ _ _ Hget) as (_ & Hfind & ->).
  rewrite UpdateCertificate_result. cbn [faults].
  destruct (hd None (tl (faults w))); [discriminate|].
  intros [= <-]. exists c. split; [exact Hfind | reflexivity].
Qed.

(** X10. After a successful revocation of the certificate that the lookup
    by owner returns for a user, a tenant request of that user does not
    fail with "certificate already exists for user". *)
Theorem revocation_unblocks_requests (id : N) (user : User)
    (reqType : CertificateType) (reason : string) (w w' : World) :
  op.RevokeCertificate id w = (Ok tt, w') ->
  db.find_certificate_by_owner (user_ID user) (store w)
  = db.find_certificate id (store w) ->
  fst (op.CreateTenantCertificateRequest user reqType reason w')
  <> Err (Errorf "certificate already exists for user").
Proof.
  intros Hrun Hsame Hdup.
  destruct (revoke_success_inv _ _ _ Hrun) as (c & Hfind & Hcerts).
  rewrite Hfind in Hsame.
  assert (Hown : cert_OwnerID c = user_ID user).
  { now destruct (find_key cert_OwnerID _ _ _ Hsame). }
  assert (Hid : cert_ID c = id).
  { now destruct (find_key cert_ID _ _ _ Hfind). }
  assert (Hf : db.find_certificate_by_owner (user_ID user) (store w')
               = Some (set_cert_Status CertificateStatusRevoked c)).
  { unfold db.find_certificate_by_owner, db.find_certificate in *.
    rewrite Hcerts.
    apply find_update_row_first with (c := c).
    - cbn [cert_ID set_cert_Status]. now rewrite Hid.
    - exact Hsame.
    - cbn. rewrite Hown. apply N.eqb_refl. }
  apply duplicate_error_iff_lookup in Hdup as (c' & Hget & _ & _ & Hst).
  destruct (db.GetCertificateByOwnerID (user_ID user) w') as [r w1] eqn:Hcall.
  cbn [fst] in Hget. subst r.
  destruct (lookup_row _ _ _ _ _ Hcall) as (_ & Hf' & _).
  rewrite Hf in Hf'. injection Hf' as <-.
  cbn in Hst. destruct Hst; discriminate.
Qed.

Lemma revocation_unblocks_requests_witness :
  let w' := snd (op.RevokeCertificate 3 sample.world0) in
  fst (op.CreateTenantCertificateRequest sample.bob "server" "renewal" sample.world0)
  = Err (Errorf "certificate already exists for user") /\
  fst (op.CreateTenantCertificateRequest sample.bob "server" "renewal" w')
  <> Err (Errorf "certificate already exists for user").
Proof.
  intros w'. split; [reflexivity|].
  apply (revocation_unblocks_requests 3 sample.bob "server" "renewal"
           sample.world0 w'); reflexivity.
Defined.

(** ** What sequences of request operations keep *)

(** One operation adds at most one certificate, only by approval, and the
    certificate it adds is valid and without content. *)
Lemma step_certificates (o : Operation) (w : World) :
  exists added,
    certificates (store (step o w)) = certificates (store w) ++ added /\
    Forall freshly_issued added /\
    (length added <= if is_approval o then 1 else 0)%nat.
Proof.
  assert (Hsame : forall w' : World,
            certificates (store w') = certificates (store w) ->
            forall n : nat, exists added,
              certificates (store w') = certificates (store w) ++ added /\
              Forall freshly_issued added /\
              (length added <= n)%nat).
  { intros w' H n. exists []. rewrite app_nil_r.
    repeat split; [exact H | constructor | simpl; lia]. }
  destruct o as [reqID adminUser | reqID adminUser reason | user reqType reason];
    cbn [step is_approval].
  - destruct (db.GetCertificateRequestByID reqID w) as [[req|e] w1] eqn:Hget.
    + destruct (IsPending req) eqn:Hp.
      * rewrite (approve_pending_run _ adminUser _ _ _ Hget Hp).
        destruct (lookup_row _ _ _ _ _ Hget) as (_ & _ & ->).
        cbn [store faults trace].
        rewrite CreateCertificate_result. cbn [faults].
        destruct (hd None (tl (faults w))); [now apply Hsame|].
        rewrite UpdateCertificateRequest_result. cbn [faults].
        eexists [_].
        destruct (hd None (tl (tl (faults w)))); cbn [snd store certificates];
          (repeat split; [repeat constructor | simpl; lia]).
      * apply Hsame. unfold op.ApproveAndCreateCertificate. plumbing.
        rewrite Hget, Hp. cbn [negb snd].
        now rewrite (lookup_store _ _ _ _ _ Hget).
    + apply Hsame. unfold op.ApproveAndCreateCertificate. plumbing.
      rewrite Hget. cbn [snd]. now rewrite (lookup_store _ _ _ _ _ Hget).
  - apply Hsame. unfold op.RejectCertificateRequest. plumbing.
    destruct (db.GetCertificateRequestByID reqID w) as [[req|e] w1] eqn:Hget;
      pose proof (lookup_store _ _ _ _ _ Hget) as Hs; cbn [snd];
      [|now rewrite Hs].
    destruct (IsPending req); cbn [negb snd]; [|now rewrite Hs].
    cbv beta iota. rewrite UpdateCertificateRequest_result. cbn [faults].
    destruct (hd None (faults w1)); cbn [snd store certificates];
      now rewrite Hs.
  - apply Hsame. unfold op.CreateTenantCertificateRequest. plumbing.
    destruct (db.GetCertificateByOwnerID (user_ID user) w) as [r1 w1] eqn:Hget.
    pose proof (lookup_store _ _ _ _ _ Hget) as Hs1.
    destruct r1 as [c|e]; [destruct (op.blocks c) | destruct (IsNotFound e)];
      cbn [negb snd]; try (now rewrite Hs1).
    all: destruct (db.GetPendingCertificateRequestByUserID (user_ID user) w1)
           as [p w2] eqn:Hp;
         pose proof (lookup_store _ _ _ _ _ Hp) as Hs2;
         destruct p as [p|e2]; cbn [snd]; try (now rewrite Hs2, Hs1);
         destruct (IsNotFound e2); cbn [negb snd]; try (now rewrite Hs2, Hs1);
         rewrite CreateCertificateRequest_result;
         destruct (hd None (faults w2)); cbn [snd store certificates];
         now rewrite Hs2, Hs1.
Qed.

(** X11. Over any sequence of approvals, rejections and tenant request
    creations, the certificates held before stay in the table unchanged
    and in place; every certificate added is valid and without content;
    and no more certificates are added than the sequence has approvals. *)
Theorem request_operations_only_append_certificates (ops : list Operation)
    (w : World) :
  exists added,
    certificates (store (run ops w)) = certificates (store w) ++ added /\
    Forall freshly_issued added /\
    (length added <= length (filter is_approval ops))%nat.
Proof.
  revert w. induction ops as [|o ops IH]; intros w.
  - exists []. rewrite app_nil_r. repeat split; [constructor | simpl; lia].
  - cbn [run fold_left].
    destruct (step_certificates o w) as (a1 & H1 & F1 & L1).
    destruct (IH (step o w)) as (a2 & H2 & F2 & L2).
    exists (a1 ++ a2). unfold run in H2. rewrite H2, H1, <- app_assoc.
    repeat split.
    + apply Forall_app. split; assumption.
    + rewrite length_app. cbn [filter].
      destruct (is_approval o); cbn [length]; lia.
Qed.

Lemma request_operations_only_append_certificates_witness :
  certificates (store (run [Reject 7 sample.admin "no";
                            TenantRequest sample.alice "client" "again";
                            TenantRequest sample.carol "client" "renewal";
                            Reject 9 sample.admin "no"] sample.world0))
  = certificates sample.store0.
Proof.
  destruct (request_operations_only_append_certificates
              [Reject 7 sample.admin "no";
               TenantRequest sample.alice "client" "again";
               TenantRequest sample.carol "client" "renewal";
               Reject 9 sample.admin "no"] sample.world0)
    as (added & H & _ & L).
  destruct added; [now rewrite H, app_nil_r | simpl in L; lia].
Defined.

Lemma filter_update_row_le {A} (key : A -> N) (f : A -> bool) (x : A)
    (l : list A) :
  f x = false ->
  (length (filter f (db.update_row key x l)) <= length (filter f l))%nat.
Proof.
  intros Hx. induction l as [|y t IH]; simpl; [lia|].
  destruct (N.eqb (key y) (key x)); simpl.
  - rewrite Hx. destruct (f y); simpl; lia.
  - destruct (f y); simpl; lia.
Qed.

Lemma find_none_filter {A} (f : A -> bool) (l : list A) :
  find f l = None -> filter f l = [].
Proof.
  induction l as [|y t IH]; simpl; [reflexivity|].
  destruct (f y); [discriminate | exact IH].
Qed.

(** Tenant request creation leaves the request table alone, or adds one
    pending request of the user, who had none. *)
Lemma tenant_request_appends (user : User) (reqType : CertificateType)
    (reason : string) (w : World) :
  let w' := snd (op.CreateTenantCertificateRequest user reqType reason w) in
  requests (store w') = requests (store w) \/
  exists request,
    db.find_pending_request (user_ID user) (store w) = None /\
    req_UserID request = user_ID user /\
    requests (store w') = requests (store w) ++ [request].
Proof.
  destruct (op.CreateTenantCertificateRequest user reqType reason w)
    as [[request|e] w'] eqn:Hrun.
  - right. destruct (tenant_success_inv _ _ _ _ _ _ Hrun)
      as (_ & Hnone & Hreq & _ & Hreqs).
    exists request. cbn [snd]. repeat split; try assumption.
    now rewrite Hreq.
  - pose proof (tenant_request_requests user reqType reason w) as H.
    cbv zeta in H. rewrite Hrun in H. cbn [snd] in *.
    destruct H as [H | [request H]]; [now left|].
    left. revert Hrun. unfold op.CreateTenantCertificateRequest. plumbing.
    destruct (db.GetCertificateByOwnerID (user_ID user) w) as [r1 w1] eqn:Hget.
    pose proof (lookup_store _ _ _ _ _ Hget) as Hs1.
    destruct r1 as [c|e1]; [destruct (op.blocks c) | destruct (IsNotFound e1)];
      cbn [negb]; try (intros [= <- <-]; exact Hs1 || now rewrite Hs1).
    all: destruct (db.GetPendingCertificateRequestByUserID (user_ID user) w1)
           as [p w2] eqn:Hp;
         pose proof (lookup_store _ _ _ _ _ Hp) as Hs2;
         destruct p as [p|e2];
         try (intros [= <- <-]; now rewrite Hs2, Hs1);
         destruct (IsNotFound e2); cbn [negb];
         try (intros [= <- <-]; now rewrite Hs2, Hs1);
         rewrite CreateCertificateRequest_result;
         destruct (hd None (faults w2));
         [intros [= <- <-]; cbn [store]; now rewrite Hs2, Hs1 | discriminate].
Qed.

(** One operation does not take a user beyond one pending request. *)
Lemma step_pending (o : Operation) (w : World) (userID : N) :
  (length (pending_of userID (store w)) <= 1)%nat ->
  (length (pending_of userID (store (step o w))) <= 1)%nat.
Proof.
  intros Hle. unfold pending_of in *.
  set (f := fun r => N.eqb (req_UserID r) userID && IsPending r) in *.
  destruct o as [reqID adminUser | reqID adminUser reason | user reqType reason];
    cbn [step].
  - destruct (approve_requests reqID adminUser w)
      as [-> | (req & approved & _ & _ & _ & Hval & ->)]; [exact Hle|].
    etransitivity; [apply filter_update_row_le | exact Hle].
    subst f. cbn. unfold IsPending. rewrite Hval. apply andb_false_r.
  - destruct (reject_requests reqID adminUser reason w)
      as [-> | (req & rejected & _ & _ & _ & Hrej & ->)]; [exact Hle|].
    etransitivity; [apply filter_update_row_le | exact Hle].
    subst f. cbn. unfold IsPending. rewrite Hrej. apply andb_false_r.
  - destruct (tenant_request_appends user reqType reason w)
      as [-> | (request & Hnone & Hu & ->)]; [exact Hle|].
    rewrite filter_app, length_app. cbn [filter].
    destruct (N.eq_dec (user_ID user) userID) as [<-|Hne].
    + unfold db.find_pending_request in Hnone. subst f.
      rewrite (find_none_filter _ _ Hnone).
      match goal with |- context [if ?b then _ else _] => destruct b end;
        simpl; lia.
    + assert (f request = false) as ->.
      { subst f. cbn. rewrite Hu.
        assert (N.eqb (user_ID user) userID = false) as ->
          by now apply N.eqb_neq.
        reflexivity. }
      simpl. lia.
Qed.

(** X12. A user who has at most one pending request has at most one
    pending request after any sequence of approvals, rejections and tenant
    request creations, whatever storage calls fail along the way. *)
Theorem at_most_one_pending_request_per_user (ops : list Operation)
    (w : World) (userID : N) :
  (length (pending_of userID (store w)) <= 1)%nat ->
  (length (pending_of userID (store (run ops w))) <= 1)%nat.
Proof.
  revert w. induction ops as [|o ops IH]; intros w Hle; [exact Hle|].
  cbn [run fold_left]. apply IH. now apply step_pending.
Qed.

Lemma at_most_one_pending_request_per_user_witness :
  (length (pending_of 10
             (store (run [TenantRequest sample.alice "client" "again";
                          Approve 7 sample.admin;
                          Reject 7 sample.admin "late";
                          TenantRequest sample.alice "server" "more"]
                         sample.world0))) <= 1)%nat.
Proof.
  apply (at_most_one_pending_request_per_user _ sample.world0 10).
  simpl. lia.
Defined.

(** ** The administrative and tenant handlers *)

(** X13. When the request loaded for the id in the path is not pending,
    the approval handler and the rejection handler both respond with
    status 500, not 400, and the message "request is not pending, current
    status: <status>", without data, and the store is unchanged. *)
Theorem decision_handlers_refuse_with_500 (intSize id : Z) (user : User)
    (body : handles.RejectBody) (w w1 : World) (req : CertificateRequest) :
  db.GetCertificateRequestByID (handles.uint intSize id) w = (Ok req, w1) ->
  req_Status req <> CertificateStatusPending ->
  let refusal : handles.Response unit :=
    handles.mkResponse 500
      ("request is not pending, current status: "
       ++ status_string (req_Status req))%string None in
  handles.ApproveCertificateRequest intSize (Ok id) user w = (refusal, w1) /\
  handles.RejectCertificateRequest intSize (Ok body) (Ok id) user w
  = (refusal, w1) /\
  store w1 = store w.
Proof.
  intros Hget Hst refusal. apply IsPending_false in Hst.
  pose proof (lookup_store _ _ _ _ _ Hget) as Hs.
  repeat split; [| |exact Hs].
  - unfold handles.ApproveCertificateRequest, op.ApproveAndCreateCertificate.
    plumbing. rewrite Hget, Hst. reflexivity.
  - unfold handles.RejectCertificateRequest, op.RejectCertificateRequest.
    plumbing. rewrite Hget, Hst. reflexivity.
Qed.

Lemma decision_handlers_refuse_with_500_witness :
  fst (handles.ApproveCertificateRequest 64 (Ok 8%Z) sample.admin sample.world0)
  = handles.mkResponse 500 "request is not pending, current status: rejected" None /\
  fst (handles.RejectCertificateRequest 32 (Ok (handles.mkRejectBody "again"))
         (Ok 8%Z) sample.admin sample.world0)
  = handles.mkResponse 500 "request is not pending, current status: rejected" None.
Proof.
  destruct (decision_handlers_refuse_with_500 64 8 sample.admin
              (handles.mkRejectBody "again") sample.world0 _ sample.request8
              eq_refl) as (Ha & _ & _); [discriminate|].
  destruct (decision_handlers_refuse_with_500 32 8 sample.admin
              (handles.mkRejectBody "again") sample.world0 _ sample.request8
              eq_refl) as (_ & Hr & _); [discriminate|].
  rewrite Ha, Hr. split; reflexivity.
Defined.

(** X14. The tenant's certificate handler answers a user who owns no
    certificate with status 200 and a nil certificate as data, when the
    storage answers the lookup; when the storage fails the lookup it
    answers with status 500 and the storage's message. *)
Theorem tenant_certificate_handler_outcomes (user : User) (w : World) :
  (call_ok 0 w ->
   db.find_certificate_by_owner (user_ID user) (store w) = None ->
   fst (handles.GetTenantCertificate user w)
   = handles.mkResponse 200 "success" (Some None))
  /\
  (forall m, call_fails 0 m w ->
   fst (handles.GetTenantCertificate user w) = handles.mkResponse 500 m None).
Proof.
  unfold handles.GetTenantCertificate, op.GetCertificateForTenant. plumbing.
  unfold db.GetCertificateByOwnerID. split.
  - intros Hok Hnone.
    now rewrite (lookup_missing _ (db.find_certificate_by_owner (user_ID user))
                   w Hok Hnone).
  - intros m Hfail.
    assert (Hhd : hd None (faults w) = Some m).
    { unfold call_fails in Hfail. destruct (faults w); [discriminate | exact Hfail]. }
    unfold db.call. now rewrite Hhd.
Qed.

Lemma tenant_certificate_handler_outcomes_witness :
  fst (handles.GetTenantCertificate sample.alice sample.world0)
  = handles.mkResponse 200 "success" (Some None) /\
  fst (handles.GetTenantCertificate sample.alice
         (mkWorld sample.store0 [Some "connection reset"] [] sample.ticking 0))
  = handles.mkResponse 500 "connection reset" None.
Proof.
  split.
  - apply (tenant_certificate_handler_outcomes sample.alice sample.world0);
      reflexivity.
  - apply (tenant_certificate_handler_outcomes sample.alice
             (mkWorld sample.store0 [Some "connection reset"] [] sample.ticking 0)).
    reflexivity.
Defined.

(** X15. The certificate update handler, which loads, changes and saves the
    certificate itself, leaves the world exactly as
    [UpdateCertificateDetails] does for the same id, name and expiration
    date; it responds with status 200 exactly when that function returns
    no error, then with the same certificate as data, and otherwise with
    status 500 and the error's message. *)
Theorem update_handler_agrees_with_update_details (intSize : Z)
    (body : handles.UpdateCertificateBody) (id : Z) (w : World) :
  let served := handles.UpdateCertificate intSize (Ok body) (Ok id) w in
  let direct :=
    op.UpdateCertificateDetails (handles.uint intSize id) (handles.upd_Name body)
      (handles.upd_ExpirationDate body) w in
  snd served = snd direct /\
  match snd (fst direct) with
  | None =>
      handles.status (fst served) = 200%Z /\
      handles.data (fst served) = fst (fst direct)
  | Some err => fst served = handles.ErrorResp err 500
  end.
Proof.
  cbv zeta.
  unfold handles.UpdateCertificate, op.UpdateCertificateDetails,
    op.GetCertificateByID, op.UpdateCertificate.
  destruct (db.GetCertificateByID (handles.uint intSize id) w) as [[cert|e] w1].
  - destruct (db.UpdateCertificate _ w1) as [[u|e] w2]; cbn; auto.
  - cbn. auto.
Qed.

Lemma update_handler_agrees_with_update_details_witness :
  fst (handles.UpdateCertificate 64
         (Ok (handles.mkUpdateCertificateBody "bob-2023" (mkTime 2023 1 1 0)))
         (Ok 3%Z) sample.world_second_fails)
  = handles.mkResponse 500 "database is locked" None /\
  store (snd (handles.UpdateCertificate 64
                (Ok (handles.mkUpdateCertificateBody "bob-2023" (mkTime 2023 1 1 0)))
                (Ok 3%Z) sample.world_second_fails))
  = sample.store0.
Proof.
  destruct (update_handler_agrees_with_update_details 64
              (handles.mkUpdateCertificateBody "bob-2023" (mkTime 2023 1 1 0))
              3 sample.world_second_fails) as [Hw Hresp].
  split; [exact Hresp | rewrite Hw; reflexivity].
Defined.

(** The conversion of a negative [int] of the target's width. *)
Lemma uint_negative (intSize id : Z) :
  (0 < intSize)%Z ->
  (- 2 ^ (intSize - 1) <= id < 0)%Z ->
  handles.uint intSize id = Z.to_N (2 ^ intSize + id) /\
  (2 ^ (intSize - 1) <= 2 ^ intSize + id < 2 ^ intSize)%Z.
Proof.
  intros Hpos H. unfold handles.uint.
  assert (Hhalf : (0 < 2 ^ (intSize - 1))%Z)
    by (apply Z.pow_pos_nonneg; lia).
  assert (Hdouble : (2 ^ intSize = 2 * 2 ^ (intSize - 1))%Z).
  { replace intSize with (Z.succ (intSize - 1)) at 1 by lia.
    apply Z.pow_succ_r. lia. }
  assert (E : (id mod 2 ^ intSize = 2 ^ intSize + id)%Z).
  { rewrite <- (Z_mod_plus_full id 1 (2 ^ intSize)).
    rewrite Z.mod_small; lia. }
  rewrite E. split; [reflexivity | lia].
Qed.

(** X16. A negative id in the path is not refused as bad input.  On a
    target whose integers have [intSize] bits, the revocation handler
    converts a negative id that [strconv.Atoi] returned to the unsigned id
    2^intSize + id, which is at least 2^(intSize-1); it never answers with
    status 400; and its first storage call is the lookup of the
    certificate with that unsigned id, whatever the storage answers. *)
Theorem negative_id_is_looked_up_unsigned (intSize id : Z) (w : World) :
  (0 < intSize)%Z ->
  (- 2 ^ (intSize - 1) <= id < 0)%Z ->
  let served := handles.RevokeCertificate intSize (Ok id) w in
  (2 ^ (intSize - 1) <= 2 ^ intSize + id < 2 ^ intSize)%Z /\
  handles.status (fst served) <> 400%Z /\
  exists rest,
    trace (snd served)
    = trace w ++ CallGetCertificateByID (Z.to_N (2 ^ intSize + id)) :: rest.
Proof.
  intros Hpos Hneg served. subst served.
  destruct (uint_negative intSize id Hpos Hneg) as [Hu Hrange].
  split; [exact Hrange|].
  unfold handles.RevokeCertificate, op.RevokeCertificate. plumbing.
  rewrite Hu.
  destruct (db.GetCertificateByID (Z.to_N (2 ^ intSize + id)) w)
    as [[cert|e] w1] eqn:Hget;
    destruct (call_world _ _ _ _ _ Hget) as (_ & Ht & _ & _).
  - destruct (db.UpdateCertificate _ w1) as [[u|e] w2] eqn:Hupd;
      destruct (call_world _ _ _ _ _ Hupd) as (_ & Ht2 & _ & _);
      cbn [fst snd]; (split; [discriminate|]);
      eexists; rewrite Ht2, Ht, <- app_assoc; reflexivity.
  - cbn [fst snd]. split; [discriminate|].
    exists []. exact Ht.
Qed.

Lemma negative_id_is_looked_up_unsigned_witness :
  trace (snd (handles.RevokeCertificate 64 (Ok (-1)%Z) sample.world0))
  = [CallGetCertificateByID 18446744073709551615] /\
  trace (snd (handles.RevokeCertificate 32 (Ok (-1)%Z) sample.world0))
  = [CallGetCertificateByID 4294967295] /\
  handles.status (fst (handles.RevokeCertificate 64 (Ok (-1)%Z) sample.world0))
  <> 400%Z.
Proof.
  destruct (negative_id_is_looked_up_unsigned 64 (-1) sample.world0)
    as (_ & Hstatus & _); [lia | lia |].
  destruct (negative_id_is_looked_up_unsigned 32 (-1) sample.world0)
    as (_ & _ & rest & _); [lia | lia |].
  repeat split. exact Hstatus.
Defined.

(** X17. The administrative request handler checks neither certificates
    nor pending requests: whenever the storage carries out the insert it
    responds with status 200 and adds a pending request for the named
    user, so that the user's pending requests grow by one, beyond one if
    there was one already. *)
Theorem admin_request_creation_is_unchecked (body : handles.AdminRequestBody)
    (w : World) :
  call_ok 0 w ->
  let request :=
    mkCertificateRequest (req_seq (store w)) (handles.adm_UserName body)
      (handles.adm_UserID body) (handles.adm_Type body)
      CertificateStatusPending (handles.adm_Reason body) "" None "" None "" in
  exists w1,
    handles.CreateCertificateRequest (Ok body) w
    = (handles.mkResponse 200 "success" (Some request), w1) /\
    requests (store w1) = requests (store w) ++ [request] /\
    certificates (store w1) = certificates (store w) /\
    length (pending_of (handles.adm_UserID body) (store w1))
    = S (length (pending_of (handles.adm_UserID body) (store w))).
Proof.
  intros Hok request. apply call_ok_next in Hok.
  eexists. split.
  - unfold handles.CreateCertificateRequest, op.CreateCertificateRequest.
    rewrite CreateCertificateRequest_result, Hok. reflexivity.
  - cbn [store requests certificates]. repeat split.
    unfold pending_of. cbn [requests].
    rewrite filter_app, length_app. cbn. rewrite N.eqb_refl. cbn. lia.
Qed.

Lemma admin_request_creation_is_unchecked_witness :
  length (pending_of 10 sample.store0) = 1%nat /\
  length (pending_of 10
            (store (snd (handles.CreateCertificateRequest
                           (Ok (handles.mkAdminRequestBody "alice" 10 "client" "again"))
                           sample.world0)))) = 2%nat.
Proof.
  split; [reflexivity|].
  destruct (admin_request_creation_is_unchecked
              (handles.mkAdminRequestBody "alice" 10 "client" "again")
              sample.world0 eq_refl) as (w1 & Hrun & _ & _ & Hlen).
  rewrite Hrun. cbn [snd]. exact Hlen.
Defined.
